(** * Friday: the canonical message and the listener / supervision core

    A shallow embedding of [shared/message_schema.py] and [main.py].

    - [UnifiedMessage] embeds the message class: the constructor
      [__init__] and the factory [create].  The two values the constructor
      takes from the outside world, the clock and [os.urandom], are passed
      in as an explicit environment.
    - [ListenerLoop] embeds [listener_loop]: one iteration is a function of
      what the loop observes in that iteration (the controller's flags, and
      what [listen], [normalize] and [forward] do), and the loop is that
      iteration run over the successive observations.
    - [RootMain] embeds the start-up and shut-down sequence of [main] as a
      program in a small call-recording monad. *)

From Stdlib Require Import String Ascii List Bool NArith QArith Lia.
Import ListNotations.
Local Close Scope Q_scope.
Local Open Scope string_scope.

(** ** Python's [uuid] module, as far as [str(uuid.uuid4())] uses it *)

Module uuid.

Local Open Scope N_scope.

(** [os.urandom(16)] read as a big-endian integer: only 128 bits of the
    draw are used. *)
Definition int_from_urandom16 (draw : N) : N := draw mod 2 ^ 128.

(** [UUID.__init__(bytes=..., version=4)]:
    [int &= ~(0xc000 << 48); int |= 0x8000 << 48;
     int &= ~(0xf000 << 64); int |= version << 76]. *)
Definition set_variant_version (int : N) : N :=
  let int := N.ldiff int (N.shiftl 0xc000 48) in
  let int := N.lor int (N.shiftl 0x8000 48) in
  let int := N.ldiff int (N.shiftl 0xf000 64) in
  N.lor int (N.shiftl 4 76).

(** A [UUID] object is its 128-bit [int]. *)
Definition uuid4 (draw : N) : N :=
  set_variant_version (int_from_urandom16 draw).

Definition hex_digit (d : N) : ascii :=
  nth (N.to_nat d) (list_ascii_of_string "0123456789abcdef") "0"%char.

(** The [w] low hexadecimal digits of [n], most significant first:
    ['%032x' % n] when [w = 32] and [n < 2^128]. *)
Fixpoint hex (w : nat) (n : N) : list ascii :=
  match w with
  | O => []
  | S w' => hex w' (n / 16) ++ [hex_digit (n mod 16)]
  end.

Definition slice (i j : nat) (l : list ascii) : list ascii :=
  firstn (j - i) (skipn i l).

(** [UUID.__str__]:
    ['%s-%s-%s-%s-%s' % (hex[:8], hex[8:12], hex[12:16], hex[16:20], hex[20:])]. *)
Definition str (u : N) : string :=
  let h := hex 32 u in
  let dash := ["-"%char] in
  string_of_list_ascii
    (slice 0 8 h ++ dash ++ slice 8 12 h ++ dash ++ slice 12 16 h
       ++ dash ++ slice 16 20 h ++ dash ++ skipn 20 h).





End uuid.

(** ** [shared/message_schema.py] *)

(** What a constructor call takes from outside the program:
    [datetime.utcnow().isoformat()] and the 16 bytes of [os.urandom]
    behind [uuid.uuid4()]. *)
Record World := mkWorld {
  utcnow_isoformat : string;
  urandom16 : N
}.

(** Python's [x or y] on an optional string: [None] and [""] are falsy. *)
Definition py_or (x : option string) (y : string) : string :=
  match x with
  | None => y
  | Some s => if String.eqb s "" then y else s
  end.

Module UnifiedMessage.

Section Payload.

(** [raw_payload: Any] *)
Variable Any : Type.

Record t := mk {
  engine_source : string;
  input_type : string;
  raw_payload : Any;
  timestamp : string;
  source_device : string;
  confidence : Q;
  privacy_flag : bool;
  session_id : string;
  payload_type : string
}.

(** The defaults of the optional parameters of [__init__]. *)
Definition default_timestamp : option string := None.
Definition default_source_device : string := "unknown".
Definition default_confidence : Q := 1.
Definition default_privacy_flag : bool := false.
Definition default_session_id : option string := None.
Definition default_payload_type : string := "string".

Definition __init__ (w : World)
    (engine_source input_type : string) (raw_payload : Any)
    (timestamp : option string) (source_device : string)
    (confidence : Q) (privacy_flag : bool)
    (session_id : option string) (payload_type : string) : t :=
  {| engine_source := engine_source;
     input_type := input_type;
     raw_payload := raw_payload;
     timestamp := py_or timestamp (utcnow_isoformat w);
     source_device := source_device;
     confidence := confidence;
     privacy_flag := privacy_flag;
     session_id := py_or session_id (uuid.str (uuid.uuid4 (urandom16 w)));
     payload_type := payload_type |}.

Definition create_default_source_device : string := "unknown".
Definition create_default_engine_source : string := "ENGINE_001".

Definition create (w : World) (input_type : string) (raw_payload : Any)
    (source_device engine_source : string) : t :=
  let payload_type :=
    if String.eqb input_type "audio" then "binary"
    else if String.eqb input_type "event" || String.eqb input_type "signal"
         then "dict"
         else "string" in
  __init__ w engine_source input_type raw_payload
    default_timestamp source_device default_confidence
    default_privacy_flag default_session_id payload_type.

End Payload.

Arguments engine_source {Any} _.
Arguments input_type {Any} _.
Arguments raw_payload {Any} _.
Arguments timestamp {Any} _.
Arguments source_device {Any} _.
Arguments confidence {Any} _.
Arguments privacy_flag {Any} _.
Arguments session_id {Any} _.
Arguments payload_type {Any} _.
Arguments __init__ {Any} _ _ _ _ _ _ _ _ _ _.
Arguments create {Any} _ _ _ _ _.

End UnifiedMessage.

(** ** Python control flow: calls, exceptions, [continue], loops *)

Module Py.

Local Open Scope list_scope.

(** What can be raised.  [Exception message] stands for an instance of
    (a subclass of) [Exception], with [message] its [str()];
    [KeyboardInterrupt] derives from [BaseException] only, so
    [except Exception] does not catch it. *)
Inductive BaseException :=
| Exception (message : string)
| KeyboardInterrupt.

Definition str (e : BaseException) : string :=
  match e with
  | Exception message => message
  | KeyboardInterrupt => ""
  end.

Definition is_Exception (e : BaseException) : bool :=
  match e with Exception _ => true | KeyboardInterrupt => false end.

Definition is_KeyboardInterrupt (e : BaseException) : bool :=
  match e with KeyboardInterrupt => true | Exception _ => false end.

(** How a block of statements ends: it completes with a value, it
    executes [continue], it raises, or it is still running a loop when
    the observations of the outside world end. *)
Inductive Res (A : Type) :=
| Val (a : A)
| Continue
| Raise (e : BaseException)
| Running.

Arguments Val {A} a.
Arguments Continue {A}.
Arguments Raise {A} e.
Arguments Running {A}.

Section Blocks.

(** The calls a block makes on the outside world, in order. *)
Variable Ev : Type.

Definition M (A : Type) : Type := (list Ev * Res A)%type.

Definition trace {A} (m : M A) : list Ev := fst m.
Definition result {A} (m : M A) : Res A := snd m.

Definition ret {A} (a : A) : M A := ([], Val a).

Definition bind {A B} (m : M A) (k : A -> M B) : M B :=
  match snd m with
  | Val a => (fst m ++ fst (k a), snd (k a))
  | Continue => (fst m, Continue)
  | Raise e => (fst m, Raise e)
  | Running => (fst m, Running)
  end.

Definition emit (e : Ev) : M unit := ([e], Val tt).

Definition continue_ {A} : M A := ([], Continue).

Definition raise {A} (e : BaseException) : M A := ([], Raise e).

(** A call on a collaborator: it is recorded, then returns or raises. *)
Definition call {A} (e : Ev) (outcome : A + BaseException) : M A :=
  ([e], match outcome with inl a => Val a | inr x => Raise x end).

(** [if cond: block] with nothing after [else]. *)
Definition when (cond : bool) (block : M unit) : M unit :=
  if cond then block else ret tt.

(** [try: block  except C as e: handler e], with [catches] the test
    "is an instance of C". *)
Definition try_except {A} (block : M A)
    (catches : BaseException -> bool)
    (handler : BaseException -> M A) : M A :=
  match snd block with
  | Raise e =>
      if catches e
      then (fst block ++ fst (handler e), snd (handler e))
      else block
  | _ => block
  end.

(** [while cond: body], run over the successive observations: each
    evaluation of [cond], and the iteration after it, sees the next
    one.  A body that completes or executes [continue] is followed by
    the next test of [cond]. *)
Fixpoint while {O : Type} (cond : O -> bool) (body : O -> M unit)
    (obs : list O) : M unit :=
  match obs with
  | [] => ([], Running)
  | o :: rest =>
      if cond o then
        match snd (body o) with
        | Val _ | Continue =>
            (fst (body o) ++ fst (while cond body rest),
             snd (while cond body rest))
        | Raise e => (fst (body o), Raise e)
        | Running => (fst (body o), Running)
        end
      else ([], Val tt)
  end.

(** [for x in xs: body x] *)
Fixpoint for_ {X : Type} (xs : list X) (body : X -> M unit) : M unit :=
  match xs with
  | [] => ret tt
  | x :: rest => bind (body x) (fun _ => for_ rest body)
  end.

End Blocks.

Arguments trace {Ev A} m.
Arguments result {Ev A} m.
Arguments ret {Ev A} a.
Arguments bind {Ev A B} m k.
Arguments emit {Ev} e.
Arguments continue_ {Ev A}.
Arguments raise {Ev A} e.
Arguments call {Ev A} e outcome.
Arguments when {Ev} cond block.
Arguments try_except {Ev A} block catches handler.
Arguments while {Ev O} cond body obs.
Arguments for_ {Ev X} xs body.

End Py.

Declare Scope py_scope.
Delimit Scope py_scope with py.
Notation "x <- m ;; k" := (Py.bind m (fun x => k))
  (at level 61, m at next level, right associativity) : py_scope.
Notation "m ;; k" := (Py.bind m (fun _ => k))
  (at level 61, right associativity) : py_scope.

(** ** [main.py]: the listener loop *)

Module ListenerLoop.

Import Py.
Local Open Scope py_scope.

(** The four classes [listener_loop] tests its listener against. *)
Inductive ListenerClass :=
| TextListener
| AudioListener
| EventListener
| SignalListener.

(** A listener object: its [__class__.__name__] and the answers of
    [isinstance(listener, C)]. *)
Record Listener := mkListener {
  class_name : string;
  isinstance : ListenerClass -> bool
}.

(** The listener [TextListener(source_device="pc")] of [main]. *)
Definition text_listener : Listener :=
  mkListener "TextListener"
    (fun k => match k with TextListener => true | _ => false end).

(** The line the loop prints for an exception whose [str()] is [message]. *)
Definition error_line (listener : Listener) (message : string) : string :=
  "[Listener Error] " ++ class_name listener ++ ": " ++ message.

Section Loop.

(** What [listen] returns and what [normalize] returns. *)
Variables Capture Message : Type.

(** [listener.listen()]: a capture, [None], or an exception. *)
Inductive ListenResult :=
| Captured (msg : Capture)
| Absent
| ListenRaises (e : BaseException).

(** What one pass of the loop observes: the controller's flags as they
    read in that pass, and what the three collaborators do. *)
Record Cycle := mkCycle {
  engine_on : bool;
  text_enabled : bool;
  audio_enabled : bool;
  events_enabled : bool;
  signals_enabled : bool;
  listen : ListenResult;
  normalize : Capture -> Message + BaseException;
  forward : Message -> unit + BaseException
}.

Inductive Event :=
| Sleep (seconds : Q)
| Listen
| Print (line : string)
| Normalize (msg : Capture)
| Forward (normalized_msg : Message).

Definition sleep (seconds : Q) : M Event unit := emit (Sleep seconds).

Definition print (line : string) : M Event unit := emit (Print line).

Definition listener_listen (c : Cycle) : M Event (option Capture) :=
  call Listen
    match listen c with
    | Captured msg => inl (Some msg)
    | Absent => inl None
    | ListenRaises e => inr e
    end.

(** The body of [while controller.engine_on:]. *)
Definition listener_loop_body (listener : Listener) (c : Cycle)
    : M Event unit :=
  when (isinstance listener TextListener && negb (text_enabled c))
    (sleep 0.1 ;; continue_) ;;
  when (isinstance listener AudioListener && negb (audio_enabled c))
    (sleep 0.1 ;; continue_) ;;
  when (isinstance listener EventListener && negb (events_enabled c))
    (sleep 0.1 ;; continue_) ;;
  when (isinstance listener SignalListener && negb (signals_enabled c))
    (sleep 0.1 ;; continue_) ;;
  msg <- try_except
           (msg <- listener_listen c ;;
            match msg with
            | None => continue_
            | Some msg => ret msg
            end)
           is_Exception
           (fun e =>
              print ("[Listener Error] " ++ class_name listener
                       ++ ": " ++ str e)%string ;;
              continue_) ;;
  normalized_msg <- call (Normalize msg) (normalize c msg) ;;
  call (Forward normalized_msg) (forward c normalized_msg) ;;
  sleep 0.05.

Definition listener_loop (listener : Listener) (obs : list Cycle)
    : M Event unit :=
  while engine_on (listener_loop_body listener) obs.

(** The enable flag that gates class [k]. *)
Definition enable_flag (k : ListenerClass) (c : Cycle) : bool :=
  match k with
  | TextListener => text_enabled c
  | AudioListener => audio_enabled c
  | EventListener => events_enabled c
  | SignalListener => signals_enabled c
  end.

(** No gate of the listener is closed: every class it is an instance
    of has its flag reading true. *)
Definition gates_open (listener : Listener) (c : Cycle) : bool :=
  forallb (fun k => implb (isinstance listener k) (enable_flag k c))
    [TextListener; AudioListener; EventListener; SignalListener].

End Loop.

Arguments Captured {Capture} msg.
Arguments Absent {Capture}.
Arguments ListenRaises {Capture} e.
Arguments Sleep {Capture Message} seconds.
Arguments Listen {Capture Message}.
Arguments Print {Capture Message} line.
Arguments Normalize {Capture Message} msg.
Arguments Forward {Capture Message} normalized_msg.
Arguments mkCycle {Capture Message} _ _ _ _ _ _ _ _.
Arguments engine_on {Capture Message} c.
Arguments text_enabled {Capture Message} c.
Arguments audio_enabled {Capture Message} c.
Arguments events_enabled {Capture Message} c.
Arguments signals_enabled {Capture Message} c.
Arguments listen {Capture Message} c.
Arguments normalize {Capture Message} c _.
Arguments forward {Capture Message} c _.
Arguments listener_loop_body {Capture Message} listener c.
Arguments listener_loop {Capture Message} listener obs.
Arguments enable_flag {Capture Message} k c.
Arguments gates_open {Capture Message} listener c.

(** A pass of a loop over string captures, with the master switch on, a
    normalizer that returns its argument, and the given readings of
    [text_enabled], [listen()] and [forward()]. *)
Definition pass (text_enabled : bool) (listen : ListenResult string)
    (forward : unit + BaseException) : Cycle string string :=
  mkCycle true text_enabled true true true listen
    (fun msg => inl msg) (fun _ => forward).

(** A pass that reads [engine_on] false. *)
Definition switched_off : Cycle string string :=
  mkCycle false true true true true (Captured "late")
    (fun msg => inl msg) (fun _ => inl tt).

End ListenerLoop.

(** ** [main.py]: start-up and shut-down of the engines *)

Module RootMain.

Import Py.
Local Open Scope py_scope.

(** The subsystems on which [main] calls [start()] and [stop()]. *)
Inductive Engine :=
| Engine_003
| Engine_004
| Engine_005
| Engine_006
| Engine_002.

(** The threads [main] creates: [me_thread] runs [mother_engine.start],
    the listener threads run [listener_loop], [monitor_thread] runs
    [monitor_engines]. *)
Inductive Thread :=
| me_thread
| listener_thread (k : ListenerLoop.ListenerClass)
| monitor_thread.

(** What [main] does to the rest of the system (console output apart). *)
Inductive Call :=
| Start (e : Engine)
| ThreadStart (t : Thread)
| StatusPoll
| Sleep (seconds : Q)
| SetEngineOn (value : bool)
| Stop (e : Engine)
| Join (t : Thread).

(** How the engines answer: each [start()] and [stop()] returns or
    raises. *)
Record Engines := mkEngines {
  start : Engine -> unit + BaseException;
  stop : Engine -> unit + BaseException
}.

(** One pass of the keep-alive loop: what [controller.engine_on] reads,
    whether the status round over [all_engines] completes, and whether
    [time.sleep(1)] completes or is interrupted. *)
Record Tick := mkTick {
  controller_engine_on : bool;
  status_round : unit + BaseException;
  sleep_1 : unit + BaseException
}.

Definition listeners : list ListenerLoop.ListenerClass :=
  [ListenerLoop.TextListener; ListenerLoop.AudioListener;
   ListenerLoop.EventListener; ListenerLoop.SignalListener].

Definition keep_alive_body (o : Tick) : M Call unit :=
  call StatusPoll (status_round o) ;;
  call (Sleep 1) (sleep_1 o).

Definition main (engines : Engines) (obs : list Tick) : M Call unit :=
  call (Start Engine_003) (start engines Engine_003) ;;
  call (Start Engine_004) (start engines Engine_004) ;;
  call (Start Engine_005) (start engines Engine_005) ;;
  call (Start Engine_006) (start engines Engine_006) ;;
  emit (ThreadStart me_thread) ;;
  for_ listeners (fun k => emit (ThreadStart (listener_thread k))) ;;
  emit (ThreadStart monitor_thread) ;;
  try_except
    (while controller_engine_on keep_alive_body obs)
    is_KeyboardInterrupt
    (fun _ =>
       emit (SetEngineOn false) ;;
       call (Stop Engine_006) (stop engines Engine_006) ;;
       call (Stop Engine_005) (stop engines Engine_005) ;;
       call (Stop Engine_004) (stop engines Engine_004) ;;
       call (Stop Engine_003) (stop engines Engine_003) ;;
       call (Stop Engine_002) (stop engines Engine_002)) ;;
  for_ listeners (fun k => emit (Join (listener_thread k))) ;;
  emit (Join me_thread).

(** The three straight-line stretches of [main]: the calls before the
    keep-alive loop, the handler of [KeyboardInterrupt], and the joins
    after the [try] statement.  In [cleanup], as in [main], every join
    returns; [RootCalls.main_joining] is [main] with joins that can be
    interrupted. *)
Definition startup (engines : Engines) : M Call unit :=
  call (Start Engine_003) (start engines Engine_003) ;;
  call (Start Engine_004) (start engines Engine_004) ;;
  call (Start Engine_005) (start engines Engine_005) ;;
  call (Start Engine_006) (start engines Engine_006) ;;
  emit (ThreadStart me_thread) ;;
  for_ listeners (fun k => emit (ThreadStart (listener_thread k))) ;;
  emit (ThreadStart monitor_thread).

Definition shutdown (engines : Engines) : M Call unit :=
  emit (SetEngineOn false) ;;
  call (Stop Engine_006) (stop engines Engine_006) ;;
  call (Stop Engine_005) (stop engines Engine_005) ;;
  call (Stop Engine_004) (stop engines Engine_004) ;;
  call (Stop Engine_003) (stop engines Engine_003) ;;
  call (Stop Engine_002) (stop engines Engine_002).

Definition cleanup : M Call unit :=
  for_ listeners (fun k => emit (Join (listener_thread k))) ;;
  emit (Join me_thread).

(** The engines in the order their [start()] was launched: by a direct
    call, or for the Mother Engine by starting [me_thread]. *)
Definition start_order (t : list Call) : list Engine :=
  flat_map (fun c => match c with
                     | Start e => [e]
                     | ThreadStart me_thread => [Engine_002]
                     | _ => []
                     end) t.

(** The engines in the order their [stop()] was called. *)
Definition stop_order (t : list Call) : list Engine :=
  flat_map (fun c => match c with Stop e => [e] | _ => [] end) t.

(** The calls of the shut-down sequence, in order. *)
Definition shutdown_calls (t : list Call) : list Call :=
  filter (fun c => match c with
                   | SetEngineOn _ | Stop _ => true
                   | _ => false
                   end) t.

Definition Engine_eqb (a b : Engine) : bool :=
  match a, b with
  | Engine_003, Engine_003 | Engine_004, Engine_004
  | Engine_005, Engine_005 | Engine_006, Engine_006
  | Engine_002, Engine_002 => true
  | _, _ => false
  end.

Fixpoint index_of (a : Engine) (l : list Engine) : option nat :=
  match l with
  | [] => None
  | x :: rest =>
      if Engine_eqb a x then Some O
      else option_map S (index_of a rest)
  end.

(** [a] and [b] both occur in [l], [a] first. *)
Definition precedes (a b : Engine) (l : list Engine) : bool :=
  match index_of a l, index_of b l with
  | Some i, Some j => Nat.ltb i j
  | _, _ => false
  end.

(** All engines answer every call normally. *)
Definition obliging : Engines :=
  mkEngines (fun _ => inl tt) (fun _ => inl tt).

(** Ctrl-C during the first [time.sleep(1)]. *)
Definition ctrl_c : list Tick :=
  [mkTick true (inl tt) (inr KeyboardInterrupt)].

End RootMain.

(** ** [shared/message_schema.py]: [__repr__] *)

Module UnifiedMessageRepr.

Import UnifiedMessage.

(** [f"{b}"] for a [bool]. *)
Definition str_bool (b : bool) : string := if b then "True" else "False".

Section Repr.

(** [raw_payload: Any], with what an f-string prints for a payload and
    for a [float]. *)
Variable Any : Type.
Variable str_any : Any -> string.
Variable str_float : Q -> string.

Definition __repr__ (self : t Any) : string :=
  let payload_preview :=
    if String.eqb (payload_type self) "binary"
    then "<binary>"
    else str_any (raw_payload self) in
  "UnifiedMessage("
  ++ "engine_source=" ++ engine_source self ++ ", "
  ++ "input_type=" ++ input_type self ++ ", "
  ++ "source_device=" ++ source_device self ++ ", "
  ++ "timestamp=" ++ timestamp self ++ ", "
  ++ "session_id=" ++ session_id self ++ ", "
  ++ "confidence=" ++ str_float (confidence self) ++ ", "
  ++ "privacy_flag=" ++ str_bool (privacy_flag self) ++ ", "
  ++ "payload_type=" ++ payload_type self ++ ", "
  ++ "raw_payload=" ++ payload_preview ++ ")".

End Repr.

Arguments __repr__ {Any} str_any str_float self.

(** The same message with another payload. *)
Definition with_raw_payload {Any} (m : t Any) (raw : Any) : t Any :=
  mk Any (engine_source m) (input_type m) raw (timestamp m)
    (source_device m) (confidence m) (privacy_flag m) (session_id m)
    (payload_type m).

End UnifiedMessageRepr.

(** ** [main.py]: the health monitor *)

Module Monitor.

Import Py.
Local Open Scope py_scope.

(** [status.get(key, default)] on a dict given by its items. *)
Fixpoint dict_get (d : list (string * string)) (key default : string)
    : string :=
  match d with
  | [] => default
  | (k, v) :: rest => if String.eqb k key then v else dict_get rest key default
  end.

(** One entry of [engines.items()] as a round of polling finds it: the
    name, and for each of the two optional methods whether the controller
    has it ([hasattr]) and what a call of it does. *)
Record Polled := mkPolled {
  name : string;
  is_running : option (bool + BaseException);
  get_status : option (list (string * string) + BaseException)
}.

Inductive Event :=
| Sleep (seconds : Q)
| IsRunning (name : string)
| GetStatus (name : string)
| Print (line : string).

Definition sleep (seconds : Q) : M Event unit := emit (Sleep seconds).
Definition print (line : string) : M Event unit := emit (Print line).

Definition warning_line (name : string) : string :=
  "[Health Monitor] WARNING: " ++ name ++ " is not running!".

Definition status_line (name status : string) : string :=
  "[Health Monitor] " ++ name ++ ": " ++ status.

(** The body of [for name, controller in engines.items():]. *)
Definition monitor_engine (o : Polled) : M Event unit :=
  match is_running o with
  | Some answer =>
      running <- call (IsRunning (name o)) answer ;;
      when (negb running) (print (warning_line (name o)))
  | None => ret tt
  end ;;
  match get_status o with
  | Some answer =>
      status <- call (GetStatus (name o)) answer ;;
      print (status_line (name o) (dict_get status "status" "unknown"))
  | None => ret tt
  end.

(** The body of [while True:]. *)
Definition monitor_round (engines : list Polled) : M Event unit :=
  sleep 10 ;;
  for_ engines monitor_engine.

(** [monitor_engines], over the successive rounds of polling. *)
Definition monitor_engines (rounds : list (list Polled)) : M Event unit :=
  while (fun _ => true) monitor_round rounds.

(** No call on the controller raises. *)
Definition answers (o : Polled) : bool :=
  match is_running o with Some (inr _) => false | _ => true end
  && match get_status o with Some (inr _) => false | _ => true end.

Definition has_is_running (o : Polled) : bool :=
  match is_running o with Some _ => true | None => false end.

Definition has_get_status (o : Polled) : bool :=
  match get_status o with Some _ => true | None => false end.

Definition not_running (o : Polled) : bool :=
  match is_running o with Some (inl false) => true | _ => false end.

Definition is_IsRunning (ev : Event) : bool :=
  match ev with IsRunning _ => true | _ => false end.
Definition is_GetStatus (ev : Event) : bool :=
  match ev with GetStatus _ => true | _ => false end.
Definition is_Print (ev : Event) : bool :=
  match ev with Print _ => true | _ => false end.

Definition count {A} (p : A -> bool) (l : list A) : nat :=
  length (filter p l).

(** The status round of the keep-alive loop of [main]: the messages it
    collects in [status_msgs]. *)
Definition root_status_engine (o : Polled) : M Event (list string) :=
  match is_running o with
  | Some answer =>
      running <- call (IsRunning (name o)) answer ;;
      if negb running then
        ret [name o ++ ": ❌ NOT RUNNING"]
      else
        match get_status o with
        | Some answer =>
            status <- call (GetStatus (name o)) answer ;;
            ret [name o ++ ": ✓ (" ++ dict_get status "status" "running" ++ ")"]
        | None => ret [name o ++ ": ✓"]
        end
  | None => ret []
  end.

Fixpoint root_status_msgs (engines : list Polled) : M Event (list string) :=
  match engines with
  | [] => ret []
  | o :: rest =>
      msgs <- root_status_engine o ;;
      more <- root_status_msgs rest ;;
      ret (msgs ++ more)%list
  end.

End Monitor.

(** ** [main.py]: the fixed stretches of calls of [main] *)

Module RootCalls.

Import RootMain.

Definition startup_calls : list Call :=
  [Start Engine_003; Start Engine_004; Start Engine_005; Start Engine_006;
   ThreadStart me_thread;
   ThreadStart (listener_thread ListenerLoop.TextListener);
   ThreadStart (listener_thread ListenerLoop.AudioListener);
   ThreadStart (listener_thread ListenerLoop.EventListener);
   ThreadStart (listener_thread ListenerLoop.SignalListener);
   ThreadStart monitor_thread].

Definition join_calls : list Call :=
  [Join (listener_thread ListenerLoop.TextListener);
   Join (listener_thread ListenerLoop.AudioListener);
   Join (listener_thread ListenerLoop.EventListener);
   Join (listener_thread ListenerLoop.SignalListener);
   Join me_thread].

Definition is_Start (c : Call) : bool :=
  match c with Start _ => true | _ => false end.
Definition is_Join (c : Call) : bool :=
  match c with Join _ => true | _ => false end.
Definition is_ThreadStart (c : Call) : bool :=
  match c with ThreadStart _ => true | _ => false end.

(** The clean-up of [main] with [t.join(timeout=1)] as a call that
    returns or is interrupted: the joins are outside the [try] statement,
    so what a join raises leaves [main]. *)
Definition cleanup_joining (join : Thread -> unit + Py.BaseException)
    : Py.M Call unit :=
  Py.bind
    (Py.for_ listeners
       (fun k => Py.call (Join (listener_thread k))
                   (join (listener_thread k))))
    (fun _ => Py.call (Join me_thread) (join me_thread)).

(** [main] with that clean-up; [main] itself is the case in which every
    join returns. *)
Definition main_joining (engines : Engines)
    (join : Thread -> unit + Py.BaseException) (obs : list Tick)
    : Py.M Call unit :=
  Py.bind (startup engines)
    (fun _ =>
       Py.bind
         (Py.try_except
            (Py.while controller_engine_on keep_alive_body obs)
            Py.is_KeyboardInterrupt (fun _ => shutdown engines))
         (fun _ => cleanup_joining join)).

(** The keep-alive loop of [main], on its own. *)
Definition keep_alive (obs : list Tick) : Py.M Call unit :=
  Py.while controller_engine_on keep_alive_body obs.

(** A pass of the keep-alive loop that completes. *)
Definition quiet_tick : Tick := mkTick true (inl tt) (inl tt).

(** A pass that reads [engine_on] false. *)
Definition off_tick : Tick := mkTick false (inl tt) (inl tt).

End RootCalls.

(** ** [main.py]: what the listener loop forwards *)

Module Forwarded.

Import ListenerLoop.

Definition count_Listen {Capture Message} (t : list (Event Capture Message))
    : nat :=
  length (filter (fun ev => match ev with Listen => true | _ => false end) t).

Definition count_Normalize {Capture Message}
    (t : list (Event Capture Message)) : nat :=
  length (filter (fun ev => match ev with Normalize _ => true | _ => false end) t).

Definition count_Forward {Capture Message}
    (t : list (Event Capture Message)) : nat :=
  length (filter (fun ev => match ev with Forward _ => true | _ => false end) t).

(** The messages handed to [gateway.forward], in order. *)
Definition forwarded {Capture Message} (t : list (Event Capture Message))
    : list Message :=
  flat_map (fun ev => match ev with Forward m => [m] | _ => [] end) t.

(** Two passes that differ at most in the enable flags of classes the
    listener is not an instance of. *)
Definition same_for {Capture Message} (listener : Listener)
    (c c' : Cycle Capture Message) : Prop :=
  engine_on c = engine_on c'
  /\ listen c = listen c'
  /\ (forall msg, normalize c msg = normalize c' msg)
  /\ (forall m, forward c m = forward c' m)
  /\ (forall k, isinstance listener k = true ->
                enable_flag k c = enable_flag k c').

(** What a pass hands to the gateway: a capture with its normalized
    message, or nothing (closed gate, no capture, or a caught error). *)
Definition pass_delivers {Capture Message} (listener : Listener)
    (c : Cycle Capture Message) (p : option (Capture * Message)) : Prop :=
  engine_on c = true
  /\ match p with
     | Some (msg, m) =>
         gates_open listener c = true
         /\ listen c = Captured msg
         /\ normalize c msg = inl m
         /\ forward c m = inl tt
     | None =>
         gates_open listener c = false
         \/ listen c = Absent
         \/ exists message, listen c = ListenRaises (Py.Exception message)
     end.

(** A listener that is an instance of none of the four classes. *)
Definition plain_listener : Listener :=
  mkListener "object" (fun _ => false).

End Forwarded.

(** * Properties *)

(** ** The UUID string *)

Module uuid_facts.

Import uuid.
Local Open Scope N_scope.

















(** [str] always prints the four dashes. *)
Lemma str_nonempty (u : N) : str u <> ""%string.
Proof.
  unfold str. intros H.
  apply (f_equal String.length) in H.
  rewrite <- (list_ascii_of_string_of_list_ascii
                (slice 0 8 (hex 32 u) ++ _)%list) in H.
  revert H.
  generalize (hex 32 u); intros h.
  destruct (slice 0 8 h); simpl; discriminate.
Qed.




End uuid_facts.

(** ** The canonical message *)

Module message_facts.

Import UnifiedMessage.

Lemma py_or_nonempty (x : option string) (y : string) :
  y <> "" -> py_or x y <> "".
Proof.
  intros Hy. unfold py_or.
  destruct x as [s|]; [|exact Hy].
  destruct (String.eqb_spec s ""); assumption.
Qed.

Example create_audio_scenario :
  let m := create (mkWorld "2026-01-01T00:00:00" 0)
             "audio" [1; 2; 3]%N "microphone" create_default_engine_source in
  payload_type m = "binary"
  /\ engine_source m = "ENGINE_001"
  /\ session_id m = "00000000-0000-4000-8000-000000000000".
Proof. vm_compute. repeat split. Qed.

Example uuid4_all_ones :
  uuid.str (uuid.uuid4 (2 ^ 128 - 1)) = "ffffffff-ffff-4fff-bfff-ffffffffffff".
Proof. vm_compute. reflexivity. Qed.

(** C1.  A message built by the factory [create] has its [payload_type]
    fixed by its [input_type]: ["audio"] gives ["binary"], ["event"] and
    ["signal"] give ["dict"], and every other [input_type] gives
    ["string"]. *)
Theorem create_payload_type_derived
    (Any : Type) (w : World) (input_type : string) (raw_payload : Any)
    (source_device engine_source : string) :
  let m := create w input_type raw_payload source_device engine_source in
  UnifiedMessage.input_type m = input_type
  /\ (input_type = "audio" -> payload_type m = "binary")
  /\ (input_type = "event" \/ input_type = "signal" ->
      payload_type m = "dict")
  /\ (input_type <> "audio" -> input_type <> "event" ->
      input_type <> "signal" -> payload_type m = "string").
Proof.
  simpl. split; [reflexivity|].
  destruct (String.eqb_spec input_type "audio") as [Ea|Na];
    destruct (String.eqb_spec input_type "event") as [Ee|Ne];
    destruct (String.eqb_spec input_type "signal") as [Es|Ns];
    simpl; subst; repeat split; intros;
    try reflexivity; try discriminate; try contradiction;
    try (destruct H; discriminate); try congruence; tauto.
Qed.

Lemma create_payload_type_derived_witness :
  let m := create (mkWorld "2026-01-01T00:00:00" 7) "text" "hello"
             "pc" "ENGINE_001" in
  payload_type m = "string"
  /\ payload_type (create (mkWorld "" 7) "audio" tt "microphone" "ENGINE_001")
     = "binary"
  /\ payload_type (create (mkWorld "" 7) "signal" tt "iot_sensor" "ENGINE_001")
     = "dict".
Proof.
  split; [|split].
  - apply (create_payload_type_derived string (mkWorld "2026-01-01T00:00:00" 7)
             "text" "hello" "pc" "ENGINE_001"); discriminate.
  - apply (create_payload_type_derived unit (mkWorld "" 7)
             "audio" tt "microphone" "ENGINE_001"); reflexivity.
  - apply (create_payload_type_derived unit (mkWorld "" 7)
             "signal" tt "iot_sensor" "ENGINE_001"); right; reflexivity.
Defined.

(** C2, as stated, fails: the constructor called directly with
    [input_type = "audio"] and [payload_type] left at its default builds
    a message that carries [payload_type = "string"]. *)
Lemma init_audio_carries_string :
  let m := __init__ (mkWorld "2026-01-01T00:00:00" 7)
             "ENGINE_001" "audio" [1; 2; 3]%N default_timestamp "microphone"
             default_confidence default_privacy_flag default_session_id
             default_payload_type in
  ~ (input_type m = "audio" -> payload_type m <> "string").
Proof.
  simpl. intros H. apply H; reflexivity.
Qed.

(** C2, amended.  The constructor stores the [payload_type] it is given,
    whatever the [input_type]; it is the factory [create] that keeps the
    derivation: a message it builds with [input_type = "audio"] never
    carries [payload_type = "string"]. *)
Theorem audio_never_string_via_create
    (Any : Type) (w : World) (raw_payload : Any)
    (engine_source input_type source_device payload_type : string)
    (timestamp session_id : option string) (confidence : Q)
    (privacy_flag : bool) :
  UnifiedMessage.payload_type
    (__init__ w engine_source input_type raw_payload timestamp
       source_device confidence privacy_flag session_id payload_type)
  = payload_type
  /\ (UnifiedMessage.input_type
        (create w input_type raw_payload source_device engine_source)
      = "audio" ->
      UnifiedMessage.payload_type
        (create w input_type raw_payload source_device engine_source)
      <> "string").
Proof.
  split; [reflexivity|].
  simpl. intros ->. simpl. discriminate.
Qed.

Lemma audio_never_string_via_create_witness :
  UnifiedMessage.payload_type
    (create (mkWorld "" 7) "audio" tt "microphone" "ENGINE_001")
  <> "string".
Proof.
  apply (audio_never_string_via_create unit (mkWorld "" 7) tt
           "ENGINE_001" "audio" "microphone" "string" None None 1 false).
  reflexivity.
Defined.




(** C10.  Whatever [session_id] the constructor is given, the message's
    [session_id] is not empty: [None] and the empty string are both
    replaced by the string of a fresh [uuid4], and any other string is
    kept. *)
Theorem session_id_never_empty
    (Any : Type) (w : World) (raw_payload : Any)
    (engine_source input_type source_device payload_type : string)
    (timestamp session_id : option string) (confidence : Q)
    (privacy_flag : bool) :
  let m := __init__ w engine_source input_type raw_payload timestamp
             source_device confidence privacy_flag session_id payload_type in
  UnifiedMessage.session_id m <> ""
  /\ UnifiedMessage.session_id m
     = match session_id with
       | None | Some "" => uuid.str (uuid.uuid4 (urandom16 w))
       | Some s => s
       end.
Proof.
  simpl. split.
  - apply py_or_nonempty, uuid_facts.str_nonempty.
  - destruct session_id as [[|c s]|]; reflexivity.
Qed.

Example empty_session_id_replaced :
  session_id (__init__ (mkWorld "" 0) "ENGINE_001" "text" tt None "pc" 1
                false (Some "") "string")
  = "00000000-0000-4000-8000-000000000000".
Proof. vm_compute. reflexivity. Qed.

End message_facts.

(** ** Blocks and loops *)

Module Py_facts.

Import Py.
Local Open Scope list_scope.

Section Blocks.

Variable Ev : Type.

Lemma pair_eta {A} (m : M Ev A) : m = (trace m, result m).
Proof. destruct m; reflexivity. Qed.

(** A loop whose observations ran out picks up where it stopped when
    it is given more of them. *)
Lemma while_app {O} (cond : O -> bool) (body : O -> M Ev unit)
    (pre rest : list O) :
  (forall o, result (body o) <> Running) ->
  result (while cond body pre) = Running ->
  while cond body (pre ++ rest)
  = (trace (while cond body pre) ++ trace (while cond body rest),
     result (while cond body rest)).
Proof.
  intros Hbody. unfold trace, result in *.
  induction pre as [|o pre IH]; intros Hrun.
  - simpl. destruct (while cond body rest); reflexivity.
  - simpl in *. destruct (cond o); [|discriminate Hrun].
    pose proof (Hbody o) as Ho.
    destruct (snd (body o)) eqn:Eo; simpl in *;
      try discriminate Hrun; try (now contradiction Ho).
    + rewrite IH by exact Hrun. simpl. now rewrite app_assoc.
    + rewrite IH by exact Hrun. simpl. now rewrite app_assoc.
Qed.

(** One more pass of a loop whose test reads true and whose body
    completes or executes [continue]. *)
Lemma while_next {O} (cond : O -> bool) (body : O -> M Ev unit)
    (o : O) (rest : list O) :
  cond o = true ->
  result (body o) = Val tt \/ result (body o) = Continue ->
  while cond body (o :: rest)
  = (trace (body o) ++ trace (while cond body rest),
     result (while cond body rest)).
Proof.
  unfold trace, result. intros Hc Hr. simpl. rewrite Hc.
  destruct Hr as [-> | ->]; reflexivity.
Qed.

(** A pass whose body raises ends the loop with that exception. *)
Lemma while_raise {O} (cond : O -> bool) (body : O -> M Ev unit)
    (o : O) (rest : list O) (e : BaseException) :
  cond o = true ->
  result (body o) = Raise e ->
  while cond body (o :: rest) = (trace (body o), Raise e).
Proof.
  unfold trace, result. intros Hc Hr. simpl. rewrite Hc, Hr. reflexivity.
Qed.

(** A test that reads false ends the loop at once. *)
Lemma while_exit {O} (cond : O -> bool) (body : O -> M Ev unit)
    (o : O) (rest : list O) :
  cond o = false -> while cond body (o :: rest) = ([], Val tt).
Proof. intros Hc. simpl. rewrite Hc. reflexivity. Qed.

End Blocks.

End Py_facts.

(** ** The listener loop *)

Module loop_facts.

Import Py ListenerLoop.
Local Open Scope list_scope.

Section Loop.

Variables Capture Message : Type.

Abbreviation Cycle := (Cycle Capture Message).
Abbreviation Event := (Event Capture Message).

Implicit Types (listener : Listener) (c : Cycle) (pre rest : list Cycle).

(** A pass with a closed gate: one sleep of 0.1 s, then [continue]. *)
Lemma body_gate_closed listener (k : ListenerClass) c :
  isinstance listener k = true ->
  enable_flag k c = false ->
  listener_loop_body listener c
  = ([Sleep 0.1] : list Event, Continue).
Proof.
  intros Hk Hf. unfold listener_loop_body.
  destruct (isinstance listener TextListener && negb (text_enabled c))
    eqn:G1; [reflexivity|].
  destruct (isinstance listener AudioListener && negb (audio_enabled c))
    eqn:G2; [reflexivity|].
  destruct (isinstance listener EventListener && negb (events_enabled c))
    eqn:G3; [reflexivity|].
  destruct (isinstance listener SignalListener && negb (signals_enabled c))
    eqn:G4; [reflexivity|].
  exfalso. destruct k; simpl in Hf; rewrite Hk, Hf in *; discriminate.
Qed.

(** A pass with every gate open, by what the collaborators do. *)
Lemma body_gates_open listener c :
  gates_open listener c = true ->
  listener_loop_body listener c
  = match listen c with
    | ListenRaises (Exception message) =>
        ([Listen; Print (error_line listener message)], Continue)
    | ListenRaises KeyboardInterrupt =>
        ([Listen], Raise KeyboardInterrupt)
    | Absent => ([Listen], Continue)
    | Captured msg =>
        match normalize c msg with
        | inr e => ([Listen; Normalize msg], Raise e)
        | inl normalized_msg =>
            match forward c normalized_msg with
            | inr e =>
                ([Listen; Normalize msg; Forward normalized_msg], Raise e)
            | inl _ =>
                ([Listen; Normalize msg; Forward normalized_msg;
                  Sleep 0.05], Val tt)
            end
        end
    end.
Proof.
  intros Hg. unfold gates_open in Hg. simpl in Hg.
  rewrite !andb_true_iff in Hg. destruct Hg as (G1 & G2 & G3 & G4 & _).
  assert (open : forall a b, implb a b = true -> a && negb b = false)
    by (intros [] []; simpl; congruence).
  apply open in G1, G2, G3, G4.
  unfold listener_loop_body, listener_listen.
  rewrite G1, G2, G3, G4.
  destruct (listen c) as [msg| |[message|]]; [|reflexivity ..].
  unfold bind, try_except, call, when, ret; simpl.
  destruct (normalize c msg) as [m|e]; [|reflexivity].
  simpl. destruct (forward c m) as [[]|e]; reflexivity.
Qed.

Lemma closed_gate_exists listener c :
  gates_open listener c = false ->
  exists k, isinstance listener k = true /\ enable_flag k c = false.
Proof.
  unfold gates_open. simpl. intros Hg.
  destruct (isinstance listener TextListener) eqn:E1,
           (text_enabled c) eqn:F1;
    try (exists TextListener; split; assumption);
    destruct (isinstance listener AudioListener) eqn:E2,
             (audio_enabled c) eqn:F2;
    try (exists AudioListener; split; assumption);
    destruct (isinstance listener EventListener) eqn:E3,
             (events_enabled c) eqn:F3;
    try (exists EventListener; split; assumption);
    destruct (isinstance listener SignalListener) eqn:E4,
             (signals_enabled c) eqn:F4;
    try (exists SignalListener; split; assumption);
    discriminate Hg.
Qed.

Lemma body_not_running listener c :
  result (listener_loop_body listener c) <> Running.
Proof.
  destruct (gates_open listener c) eqn:Hg.
  - rewrite (body_gates_open _ _ Hg).
    destruct (listen c) as [msg| |[message|]]; try discriminate.
    destruct (normalize c msg) as [m|e]; try discriminate.
    destruct (forward c m) as [[]|e]; discriminate.
  - destruct (closed_gate_exists _ _ Hg) as (k & Hk & Hf).
    rewrite (body_gate_closed _ k _ Hk Hf). discriminate.
Qed.

(** The loop after a history [pre] that left it running. *)
Lemma loop_app listener pre rest :
  result (listener_loop listener pre) = Running ->
  listener_loop listener (pre ++ rest)
  = (trace (listener_loop listener pre)
       ++ trace (listener_loop listener rest),
     result (listener_loop listener rest)).
Proof.
  apply Py_facts.while_app. apply body_not_running.
Qed.

(** Passes with a closed gate only sleep, and leave the loop running. *)
Lemma loop_idle listener (k : ListenerClass) (idle rest : list Cycle) :
  isinstance listener k = true ->
  Forall (fun c => engine_on c = true /\ enable_flag k c = false) idle ->
  listener_loop listener (idle ++ rest)
  = (repeat (Sleep 0.1) (length idle)
       ++ trace (listener_loop listener rest),
     result (listener_loop listener rest)).
Proof.
  intros Hk Hidle. induction Hidle as [|c idle [Hon Hf] _ IH].
  - simpl. apply Py_facts.pair_eta.
  - simpl app. unfold listener_loop in *.
    rewrite Py_facts.while_next;
      rewrite ?(body_gate_closed _ k _ Hk Hf); auto.
    rewrite IH. reflexivity.
Qed.

(** A pass makes at most four calls. *)
Lemma body_bounded listener c :
  (length (trace (listener_loop_body listener c)) <= 4)%nat.
Proof.
  destruct (gates_open listener c) eqn:Hg.
  - rewrite (body_gates_open _ _ Hg).
    destruct (listen c) as [msg| |[message|]]; simpl; try lia.
    destruct (normalize c msg) as [m|e]; simpl; try lia.
    destruct (forward c m) as [[]|e]; simpl; lia.
  - destruct (closed_gate_exists _ _ Hg) as (k & Hk & Hf).
    rewrite (body_gate_closed _ k _ Hk Hf). simpl. lia.
Qed.

Lemma loop_cons_next listener c rest :
  engine_on c = true ->
  result (listener_loop_body listener c) = Val tt
  \/ result (listener_loop_body listener c) = Continue ->
  listener_loop listener (c :: rest)
  = (trace (listener_loop_body listener c)
       ++ trace (listener_loop listener rest),
     result (listener_loop listener rest)).
Proof. intros Hon Hr. unfold listener_loop. now apply Py_facts.while_next. Qed.

Lemma loop_cons_raise listener c rest (e : BaseException) :
  engine_on c = true ->
  result (listener_loop_body listener c) = Raise e ->
  listener_loop listener (c :: rest)
  = (trace (listener_loop_body listener c), Raise e).
Proof. intros Hon Hr. unfold listener_loop. now apply Py_facts.while_raise. Qed.

Lemma loop_cons_exit listener c rest :
  engine_on c = false ->
  listener_loop listener (c :: rest) = ([], Val tt).
Proof. intros Hoff. unfold listener_loop. now apply Py_facts.while_exit. Qed.

(** One pass, after a history that left the loop running, whose body
    completes or executes [continue]. *)
Lemma loop_pass listener pre c rest :
  result (listener_loop listener pre) = Running ->
  engine_on c = true ->
  result (listener_loop_body listener c) = Val tt
  \/ result (listener_loop_body listener c) = Continue ->
  listener_loop listener (pre ++ c :: rest)
  = (trace (listener_loop listener pre)
       ++ trace (listener_loop_body listener c)
       ++ trace (listener_loop listener rest),
     result (listener_loop listener rest)).
Proof.
  intros Hpre Hon Hr. rewrite (loop_app _ _ _ Hpre).
  rewrite (loop_cons_next _ _ _ Hon Hr). reflexivity.
Qed.

(** One pass, after a history that left the loop running, whose body
    raises. *)
Lemma loop_pass_raise listener pre c rest (e : BaseException) :
  result (listener_loop listener pre) = Running ->
  engine_on c = true ->
  result (listener_loop_body listener c) = Raise e ->
  listener_loop listener (pre ++ c :: rest)
  = (trace (listener_loop listener pre)
       ++ trace (listener_loop_body listener c),
     Raise e).
Proof.
  intros Hpre Hon Hr. rewrite (loop_app _ _ _ Hpre).
  rewrite (loop_cons_raise _ _ _ e Hon Hr). reflexivity.
Qed.

(** C3.  In a pass in which [listener.listen()] raises an exception (an
    instance of [Exception], the class the handler names), the
    exception is caught and a line naming the listener's class is printed;
    the pass ends as one in which [listen()] returned [None] does, with
    [continue], and the loop goes on with the next pass. *)
Theorem listen_error_caught listener pre c rest (message : string) :
  result (listener_loop listener pre) = Running ->
  engine_on c = true ->
  gates_open listener c = true ->
  listen c = ListenRaises (Exception message) ->
  listener_loop_body listener c
  = ([Listen; Print (error_line listener message)], Continue)
  /\ listener_loop listener (pre ++ c :: rest)
     = (trace (listener_loop listener pre)
          ++ [Listen; Print (error_line listener message)]
          ++ trace (listener_loop listener rest),
        result (listener_loop listener rest))
  /\ (forall c', gates_open listener c' = true -> listen c' = Absent ->
        result (listener_loop_body listener c)
        = result (listener_loop_body listener c')
        /\ trace (listener_loop_body listener c)
           = trace (listener_loop_body listener c')
               ++ [Print (error_line listener message)]).
Proof.
  intros Hpre Hon Hg Hl.
  assert (Hb : listener_loop_body listener c
               = ([Listen; Print (error_line listener message)], Continue))
    by (rewrite (body_gates_open _ _ Hg), Hl; reflexivity).
  split; [exact Hb|]. split.
  - rewrite (loop_pass _ _ _ _ Hpre Hon); rewrite Hb; auto.
  - intros c' Hg' Hl'.
    rewrite Hb, (body_gates_open _ _ Hg'), Hl'. split; reflexivity.
Qed.

(** C5, amended.  In a pass in which [gateway.forward] returns, the loop
    sleeps 0.05 s and goes on with the next pass; the loop has no handler
    around [forward], so an exception [forward] raises leaves
    [listener_loop] and ends it, with no further call. *)
Theorem forward_returns_or_ends_loop
    listener pre c rest (msg : Capture) (normalized_msg : Message) :
  result (listener_loop listener pre) = Running ->
  engine_on c = true ->
  gates_open listener c = true ->
  listen c = Captured msg ->
  normalize c msg = inl normalized_msg ->
  (forward c normalized_msg = inl tt ->
   listener_loop listener (pre ++ c :: rest)
   = (trace (listener_loop listener pre)
        ++ [Listen; Normalize msg; Forward normalized_msg; Sleep 0.05]
        ++ trace (listener_loop listener rest),
      result (listener_loop listener rest)))
  /\ (forall e, forward c normalized_msg = inr e ->
      listener_loop listener (pre ++ c :: rest)
      = (trace (listener_loop listener pre)
           ++ [Listen; Normalize msg; Forward normalized_msg],
         Raise e)).
Proof.
  intros Hpre Hon Hg Hl Hn.
  pose proof (body_gates_open _ _ Hg) as Hb. rewrite Hl, Hn in Hb.
  split.
  - intros Hf. rewrite Hf in Hb.
    rewrite (loop_pass _ _ _ _ Hpre Hon); rewrite Hb; auto.
  - intros e Hf. rewrite Hf in Hb.
    rewrite (loop_pass_raise _ _ _ _ e Hpre Hon); rewrite Hb; auto.
Qed.

(** C6.  While the enable flag of a class of the listener reads false,
    each pass is one sleep of 0.1 s: no [listen], [normalize] or [forward]
    is called.  The loop is still the same running loop after it: in the
    first pass that finds the gates open and gets a capture, the message
    is normalized and forwarded. *)
Theorem disabled_channel_idles_then_resumes
    listener (k : ListenerClass) pre (idle : list Cycle) c rest
    (msg : Capture) (normalized_msg : Message) :
  result (listener_loop listener pre) = Running ->
  isinstance listener k = true ->
  Forall (fun c => engine_on c = true /\ enable_flag k c = false) idle ->
  (forall rest',
     listener_loop listener (pre ++ idle ++ rest')
     = (trace (listener_loop listener pre)
          ++ repeat (Sleep 0.1) (length idle)
          ++ trace (listener_loop listener rest'),
        result (listener_loop listener rest')))
  /\ (engine_on c = true ->
      gates_open listener c = true ->
      listen c = Captured msg ->
      normalize c msg = inl normalized_msg ->
      forward c normalized_msg = inl tt ->
      listener_loop listener (pre ++ idle ++ c :: rest)
      = (trace (listener_loop listener pre)
           ++ repeat (Sleep 0.1) (length idle)
           ++ [Listen; Normalize msg; Forward normalized_msg; Sleep 0.05]
           ++ trace (listener_loop listener rest),
         result (listener_loop listener rest))).
Proof.
  intros Hpre Hk Hidle.
  assert (Hi : forall rest',
            listener_loop listener (pre ++ idle ++ rest')
            = (trace (listener_loop listener pre)
                 ++ repeat (Sleep 0.1) (length idle)
                 ++ trace (listener_loop listener rest'),
               result (listener_loop listener rest'))).
  { intros rest'. rewrite (loop_app _ _ _ Hpre).
    rewrite (loop_idle _ k _ _ Hk Hidle). reflexivity. }
  split; [exact Hi|].
  intros Hon Hg Hl Hn Hf. rewrite Hi.
  pose proof (body_gates_open _ _ Hg) as Hb. rewrite Hl, Hn, Hf in Hb.
  rewrite loop_cons_next; rewrite ?Hb; auto.
Qed.

(** C7.  A pass makes at most four calls, and at the first test of
    [controller.engine_on] that reads false the loop returns: nothing is
    captured, normalized or forwarded from then on, whatever the rest of
    the world would have offered. *)
Theorem engine_off_ends_loop listener pre c rest :
  result (listener_loop listener pre) = Running ->
  engine_on c = false ->
  listener_loop listener (pre ++ c :: rest)
  = (trace (listener_loop listener pre), Val tt)
  /\ (forall c', length (trace (listener_loop_body listener c')) <= 4)%nat.
Proof.
  intros Hpre Hoff. split; [|intros c'; apply body_bounded].
  rewrite (loop_app _ _ _ Hpre), (loop_cons_exit _ _ _ Hoff).
  unfold trace at 2. simpl. now rewrite app_nil_r.
Qed.

End Loop.

Lemma listen_error_caught_witness :
  listener_loop text_listener
    [pass true (ListenRaises (Exception "mic busy")) (inl tt);
     pass true (Captured "hi") (inl tt)]
  = ([Listen; Print "[Listener Error] TextListener: mic busy";
      Listen; Normalize "hi"; Forward "hi"; Sleep 0.05], Running).
Proof.
  exact (proj1 (proj2
    (listen_error_caught string string text_listener []
       (pass true (ListenRaises (Exception "mic busy")) (inl tt))
       [pass true (Captured "hi") (inl tt)] "mic busy"
       eq_refl eq_refl eq_refl eq_refl))).
Defined.

(** C4, on the code.  Two passes of an enabled text listener whose
    [listen()] returns [None] both times: the second [listen()] follows
    the first with no sleep between them.  A pass that gets a capture does
    sleep, after [normalize] and [forward]. *)
Theorem absent_capture_no_delay :
  listener_loop text_listener [pass true Absent (inl tt); pass true Absent (inl tt)]
  = ([Listen; Listen], Running)
  /\ listener_loop text_listener [pass true (Captured "hi") (inl tt)]
     = ([Listen; Normalize "hi"; Forward "hi"; Sleep 0.05], Running).
Proof. split; reflexivity. Qed.

(** C5, as stated, fails: [forward] raises in the first pass, the
    exception leaves [listener_loop], and the second pass never runs. *)
Lemma forward_error_ends_loop :
  let c := pass true (Captured "hi") (inr (Exception "downstream unavailable")) in
  let rest := [pass true (Captured "again") (inl tt)] in
  listener_loop text_listener (c :: rest)
  = ([Listen; Normalize "hi"; Forward "hi"],
     Raise (Exception "downstream unavailable"))
  /\ ~ (exists evs,
          listener_loop text_listener (c :: rest)
          = (evs ++ trace (listener_loop text_listener rest),
             result (listener_loop text_listener rest))).
Proof.
  split; [reflexivity|].
  intros [evs H]. apply (f_equal snd) in H. vm_compute in H. discriminate H.
Qed.

Lemma forward_returns_or_ends_loop_witness :
  listener_loop text_listener
    [pass true (Captured "hi") (inl tt); pass true Absent (inl tt)]
  = ([Listen; Normalize "hi"; Forward "hi"; Sleep 0.05; Listen], Running)
  /\ listener_loop text_listener
       [pass true (Captured "hi") (inr (Exception "downstream unavailable"));
        pass true Absent (inl tt)]
     = ([Listen; Normalize "hi"; Forward "hi"],
        Raise (Exception "downstream unavailable")).
Proof.
  split.
  - exact (proj1
      (forward_returns_or_ends_loop string string text_listener []
         (pass true (Captured "hi") (inl tt)) [pass true Absent (inl tt)]
         "hi" "hi" eq_refl eq_refl eq_refl eq_refl eq_refl) eq_refl).
  - exact (proj2
      (forward_returns_or_ends_loop string string text_listener []
         (pass true (Captured "hi")
            (inr (Exception "downstream unavailable")))
         [pass true Absent (inl tt)]
         "hi" "hi" eq_refl eq_refl eq_refl eq_refl eq_refl)
      (Exception "downstream unavailable") eq_refl).
Defined.

Lemma disabled_channel_idles_then_resumes_witness :
  listener_loop text_listener
    [pass false (Captured "dropped") (inl tt);
     pass false (Captured "dropped too") (inl tt);
     pass true (Captured "hi") (inl tt)]
  = ([Sleep 0.1; Sleep 0.1;
      Listen; Normalize "hi"; Forward "hi"; Sleep 0.05], Running).
Proof.
  apply (disabled_channel_idles_then_resumes string string text_listener TextListener []
           [pass false (Captured "dropped") (inl tt);
            pass false (Captured "dropped too") (inl tt)]
           (pass true (Captured "hi") (inl tt)) [] "hi" "hi");
    try reflexivity.
  repeat constructor.
Defined.

Lemma engine_off_ends_loop_witness :
  listener_loop text_listener
    [pass true (Captured "hi") (inl tt); switched_off;
     pass true (Captured "after") (inl tt)]
  = ([Listen; Normalize "hi"; Forward "hi"; Sleep 0.05], Val tt).
Proof.
  exact (proj1
    (engine_off_ends_loop string string text_listener
       [pass true (Captured "hi") (inl tt)] switched_off
       [pass true (Captured "after") (inl tt)] eq_refl eq_refl)).
Defined.

End loop_facts.

(** ** Start-up and shut-down order *)

Module main_facts.

Import Py RootMain.
Local Open Scope list_scope.

Lemma main_blocks (engines : Engines) (obs : list Tick) :
  main engines obs
  = bind (startup engines)
      (fun _ =>
         bind (try_except (while controller_engine_on keep_alive_body obs)
                 is_KeyboardInterrupt (fun _ => shutdown engines))
           (fun _ => cleanup)).
Proof.
  unfold main, startup.
  destruct (start engines Engine_003) as [[]|e3]; [|reflexivity].
  destruct (start engines Engine_004) as [[]|e4]; [|reflexivity].
  destruct (start engines Engine_005) as [[]|e5]; [|reflexivity].
  destruct (start engines Engine_006) as [[]|e6]; reflexivity.
Qed.

(** The keep-alive loop starts and stops nothing. *)
Lemma keep_alive_quiet (obs : list Tick) :
  let t := trace (while controller_engine_on keep_alive_body obs) in
  start_order t = [] /\ stop_order t = [] /\ shutdown_calls t = [].
Proof.
  induction obs as [|o obs (IH1 & IH2 & IH3)]; simpl; [auto|].
  destruct (controller_engine_on o); [|simpl; auto].
  unfold keep_alive_body, bind, call.
  unfold start_order, stop_order, shutdown_calls, trace in *.
  destruct (status_round o) as [[]|e1]; simpl; [|auto].
  destruct (sleep_1 o) as [[]|e2]; simpl; auto.
Qed.

(** The start order is an initial part of 003, 004, 005, 006, 002, and
    complete once the keep-alive loop is reached. *)
Lemma startup_cases (engines : Engines) :
  (startup engines
   = ([Start Engine_003; Start Engine_004; Start Engine_005;
       Start Engine_006; ThreadStart me_thread;
       ThreadStart (listener_thread ListenerLoop.TextListener);
       ThreadStart (listener_thread ListenerLoop.AudioListener);
       ThreadStart (listener_thread ListenerLoop.EventListener);
       ThreadStart (listener_thread ListenerLoop.SignalListener);
       ThreadStart monitor_thread], Val tt))
  \/ (exists e,
        result (startup engines) = Raise e
        /\ stop_order (trace (startup engines)) = []
        /\ shutdown_calls (trace (startup engines)) = []).
Proof.
  unfold startup, bind, call, emit.
  destruct (start engines Engine_003) as [[]|e]; simpl; [|right; eauto].
  destruct (start engines Engine_004) as [[]|e]; simpl; [|right; eauto].
  destruct (start engines Engine_005) as [[]|e]; simpl; [|right; eauto].
  destruct (start engines Engine_006) as [[]|e]; simpl; [|right; eauto].
  left. reflexivity.
Qed.

Ltac stopped_are l :=
  exists l; split; [reflexivity | split; [simpl; tauto | eauto]].

(** The handler sets [engine_on] and then stops an initial part of
    006, 005, 004, 003, 002. *)
Lemma shutdown_cases (engines : Engines) :
  exists stopped,
    trace (shutdown engines) = SetEngineOn false :: map Stop stopped
    /\ In stopped
         [[Engine_006];
          [Engine_006; Engine_005];
          [Engine_006; Engine_005; Engine_004];
          [Engine_006; Engine_005; Engine_004; Engine_003];
          [Engine_006; Engine_005; Engine_004; Engine_003; Engine_002]]
    /\ (result (shutdown engines) = Val tt
        \/ exists e, result (shutdown engines) = Raise e).
Proof.
  unfold shutdown, bind, call, emit, trace, result.
  destruct (stop engines Engine_006) as [[]|e]; simpl;
    [|stopped_are [Engine_006]].
  destruct (stop engines Engine_005) as [[]|e]; simpl;
    [|stopped_are [Engine_006; Engine_005]].
  destruct (stop engines Engine_004) as [[]|e]; simpl;
    [|stopped_are [Engine_006; Engine_005; Engine_004]].
  destruct (stop engines Engine_003) as [[]|e]; simpl;
    [|stopped_are [Engine_006; Engine_005; Engine_004; Engine_003]].
  destruct (stop engines Engine_002) as [[]|e]; simpl;
    stopped_are
      [Engine_006; Engine_005; Engine_004; Engine_003; Engine_002].
Qed.

Lemma stop_order_map_Stop (l : list Engine) : stop_order (map Stop l) = l.
Proof. induction l as [|x l IH]; simpl; congruence. Qed.

Lemma shutdown_calls_map_Stop (l : list Engine) :
  shutdown_calls (map Stop l) = map Stop l.
Proof. induction l as [|x l IH]; simpl; congruence. Qed.

Lemma start_order_map_Stop (l : list Engine) : start_order (map Stop l) = [].
Proof. induction l as [|x l IH]; simpl; congruence. Qed.

(** What a run of [main] shows of the two orders. *)
Lemma main_orders (engines : Engines) (obs : list Tick) :
  let t := trace (main engines obs) in
  (stop_order t = [] /\ shutdown_calls t = [])
  \/ (exists stopped,
        start_order t
        = [Engine_003; Engine_004; Engine_005; Engine_006; Engine_002]
        /\ stop_order t = stopped
        /\ shutdown_calls t = SetEngineOn false :: map Stop stopped
        /\ In stopped
             [[Engine_006];
              [Engine_006; Engine_005];
              [Engine_006; Engine_005; Engine_004];
              [Engine_006; Engine_005; Engine_004; Engine_003];
              [Engine_006; Engine_005; Engine_004; Engine_003; Engine_002]]).
Proof.
  cbv zeta. rewrite main_blocks.
  destruct (startup_cases engines) as [Hs | (e & Hr & Hst & Hsh)].
  2:{ left. unfold bind, trace, result in *. rewrite Hr. simpl. auto. }
  rewrite Hs.
  destruct (keep_alive_quiet obs) as (K1 & K2 & K3).
  destruct (shutdown_cases engines) as (stopped & Ht & Hin & Hres).
  set (sh := shutdown engines) in *. clearbody sh.
  unfold trace, result in *. destruct sh as [sht shr]. simpl in Ht, Hres.
  subst sht.
  destruct (while controller_engine_on keep_alive_body obs) as [ka r].
  simpl in K1, K2, K3.
  unfold bind at 1. simpl snd. simpl fst.
  unfold try_except. simpl snd. simpl fst.
  unfold start_order, stop_order, shutdown_calls in *.
  destruct r as [[]| |[message|]|].
  - left. unfold bind. simpl.
    rewrite !flat_map_app, !filter_app, K2, K3. simpl. auto.
  - left. unfold bind. simpl. rewrite K2, K3. auto.
  - left. unfold bind. simpl. rewrite K2, K3. auto.
  - right. exists stopped. simpl is_KeyboardInterrupt. cbv iota.
    pose proof (stop_order_map_Stop stopped) as M1.
    pose proof (shutdown_calls_map_Stop stopped) as M2.
    pose proof (start_order_map_Stop stopped) as M3.
    unfold start_order, stop_order, shutdown_calls in M1, M2, M3.
    unfold bind. simpl snd. simpl fst.
    destruct Hres as [-> | [e ->]]; simpl;
      rewrite ?flat_map_app, ?filter_app; simpl;
      rewrite ?flat_map_app, ?filter_app; simpl;
      rewrite ?K1, ?K2, ?K3, ?M1, ?M2, ?M3; simpl;
      rewrite ?app_nil_r; auto.
  - left. unfold bind. simpl. rewrite K2, K3. auto.
Qed.

Example interrupted_run :
  main obliging ctrl_c
  = ([Start Engine_003; Start Engine_004; Start Engine_005;
      Start Engine_006; ThreadStart me_thread;
      ThreadStart (listener_thread ListenerLoop.TextListener);
      ThreadStart (listener_thread ListenerLoop.AudioListener);
      ThreadStart (listener_thread ListenerLoop.EventListener);
      ThreadStart (listener_thread ListenerLoop.SignalListener);
      ThreadStart monitor_thread;
      StatusPoll; Sleep 1;
      SetEngineOn false;
      Stop Engine_006; Stop Engine_005; Stop Engine_004; Stop Engine_003;
      Stop Engine_002;
      Join (listener_thread ListenerLoop.TextListener);
      Join (listener_thread ListenerLoop.AudioListener);
      Join (listener_thread ListenerLoop.EventListener);
      Join (listener_thread ListenerLoop.SignalListener);
      Join me_thread], Val tt).
Proof. vm_compute. reflexivity. Qed.

(** C8, as stated, fails: the Mother Engine (002) is the last engine
    started and also the last one stopped, so the stop order is not the
    reverse of the start order; Engine 006 is started before it and
    stopped before it too. *)
Lemma stop_order_not_reverse_of_start_order :
  let t := trace (main obliging ctrl_c) in
  start_order t
  = [Engine_003; Engine_004; Engine_005; Engine_006; Engine_002]
  /\ stop_order t
     = [Engine_006; Engine_005; Engine_004; Engine_003; Engine_002]
  /\ stop_order t <> rev (start_order t)
  /\ ~ (precedes Engine_006 Engine_002 (start_order t) = true ->
        precedes Engine_002 Engine_006 (stop_order t) = true).
Proof.
  vm_compute. repeat split; try discriminate.
  intros H. specialize (H eq_refl). discriminate H.
Qed.

(** C8, amended.  In every run of [main], the shut-down calls, when there
    are any, begin with [engine_on = False] and go on with the [stop()]
    calls.  Among Engines 003 to 006 the stops come in the reverse of the
    start order: an engine started before another is stopped after it.
    The Mother Engine (002) is stopped after all of them, and once it is
    stopped the order of the stops has been 006, 005, 004, 003, 002. *)
Theorem stop_order_of_main (engines : Engines) (obs : list Tick) :
  let t := trace (main engines obs) in
  (shutdown_calls t = []
   \/ shutdown_calls t = SetEngineOn false :: map Stop (stop_order t))
  /\ (forall a b,
        a <> Engine_002 -> b <> Engine_002 ->
        precedes a b (start_order t) = true ->
        In a (stop_order t) ->
        precedes b a (stop_order t) = true)
  /\ (forall a,
        a <> Engine_002 ->
        In Engine_002 (stop_order t) ->
        precedes a Engine_002 (stop_order t) = true)
  /\ (In Engine_002 (stop_order t) ->
      stop_order t
      = [Engine_006; Engine_005; Engine_004; Engine_003; Engine_002]).
Proof.
  cbv zeta.
  destruct (main_orders engines obs)
    as [[H1 H2] | (stopped & Hs & Ht & Hd & Hin)].
  - rewrite H1, H2. repeat split; auto; intros; simpl in *; contradiction.
  - rewrite Hs, Ht, Hd. split; [right; reflexivity|].
    simpl in Hin.
    repeat (destruct Hin as [<- | Hin]; [|]); try contradiction;
      (split; [|split]);
      try (intros a b Ha Hb Hp Hi; destruct a, b;
           try congruence; try discriminate Hp; try reflexivity;
           simpl in Hi; intuition discriminate);
      try (intros a Ha Hi; destruct a;
           try congruence; try reflexivity;
           simpl in Hi; intuition discriminate);
      try (intros Hi; try reflexivity; simpl in Hi; intuition discriminate).
Qed.

Lemma stop_order_of_main_witness :
  precedes Engine_004 Engine_003
    (stop_order (trace (main obliging ctrl_c))) = true
  /\ precedes Engine_006 Engine_002
       (stop_order (trace (main obliging ctrl_c))) = true.
Proof.
  split.
  - apply (proj1 (proj2 (stop_order_of_main obliging ctrl_c))
             Engine_003 Engine_004).
    + discriminate.
    + discriminate.
    + vm_compute. reflexivity.
    + vm_compute. tauto.
  - apply (proj1 (proj2 (proj2 (stop_order_of_main obliging ctrl_c)))
             Engine_006).
    + discriminate.
    + vm_compute. tauto.
Defined.

End main_facts.

(** * Further properties of the code *)

(** ** Strings *)

Module string_facts.

Lemma append_inv_head (p a b : string) : p ++ a = p ++ b -> a = b.
Proof.
  induction p as [|c p IH]; simpl; intros H; [exact H|].
  injection H as H. auto.
Qed.

Lemma length_append (a b : string) :
  String.length (a ++ b) = (String.length a + String.length b)%nat.
Proof. induction a as [|c a IH]; simpl; congruence. Qed.

Lemma append_inv_tail (a b s : string) : a ++ s = b ++ s -> a = b.
Proof.
  revert b; induction a as [|c a IH]; intros [|d b] H; simpl in H.
  - reflexivity.
  - apply (f_equal String.length) in H. simpl in H.
    rewrite length_append in H. lia.
  - apply (f_equal String.length) in H. simpl in H.
    rewrite length_append in H. lia.
  - injection H as -> H. f_equal. auto.
Qed.

End string_facts.

(** ** The message: its fields and its [__repr__] *)

Module message_extras.

Import UnifiedMessage UnifiedMessageRepr.

(** X1.  Whatever [input_type] the factory [create] is given, known or
    not, the [payload_type] of the message is one of ["string"],
    ["binary"] and ["dict"]; it is ["binary"] for ["audio"] only and
    ["dict"] for ["event"] and ["signal"] only. *)
Theorem create_payload_type_closed
    (Any : Type) (w : World) (input_type : string) (raw_payload : Any)
    (source_device engine_source : string) :
  let m := create w input_type raw_payload source_device engine_source in
  (payload_type m = "string" \/ payload_type m = "binary"
   \/ payload_type m = "dict")
  /\ (payload_type m = "binary" <-> input_type = "audio")
  /\ (payload_type m = "dict" <->
      input_type = "event" \/ input_type = "signal").
Proof.
  simpl.
  destruct (String.eqb_spec input_type "audio") as [Ea|Na];
    destruct (String.eqb_spec input_type "event") as [Ee|Ne];
    destruct (String.eqb_spec input_type "signal") as [Es|Ns];
    simpl; subst; repeat split; intros; auto;
    try discriminate; try contradiction;
    try (destruct H; try contradiction; discriminate).
Qed.

(** X2.  The constructor keeps a [timestamp] that is not empty; [None]
    and the empty string are both replaced by the clock's
    [utcnow().isoformat()].  The factory [create] passes none, so its
    messages always carry the clock's time, confidence 1.0 and a false
    privacy flag. *)
Theorem timestamp_defaulted
    (Any : Type) (w : World) (raw_payload : Any)
    (engine_source input_type source_device payload_type : string)
    (timestamp session_id : option string) (confidence : Q)
    (privacy_flag : bool) :
  UnifiedMessage.timestamp
    (__init__ w engine_source input_type raw_payload timestamp
       source_device confidence privacy_flag session_id payload_type)
  = match timestamp with
    | None | Some "" => utcnow_isoformat w
    | Some s => s
    end
  /\ let m := create w input_type raw_payload source_device engine_source in
     UnifiedMessage.timestamp m = utcnow_isoformat w
     /\ UnifiedMessage.confidence m = 1%Q
     /\ UnifiedMessage.privacy_flag m = false
     /\ UnifiedMessage.source_device m = source_device
     /\ UnifiedMessage.raw_payload m = raw_payload.
Proof.
  split.
  - simpl. destruct timestamp as [[|c s]|]; reflexivity.
  - simpl. repeat split.
Qed.

(** X3.  [__repr__] never prints the payload of a message whose
    [payload_type] is ["binary"]: replacing the payload leaves the text
    unchanged.  So the text of a message made by [create] for ["audio"]
    does not depend on the audio bytes. *)
Theorem repr_hides_binary_payload
    (Any : Type) (str_any : Any -> string) (str_float : Q -> string)
    (m : t Any) (raw : Any) :
  payload_type m = "binary" ->
  __repr__ str_any str_float (with_raw_payload m raw)
  = __repr__ str_any str_float m.
Proof.
  intros Hb. unfold __repr__, with_raw_payload. simpl. rewrite Hb.
  reflexivity.
Qed.

Lemma repr_hides_binary_payload_witness :
  __repr__ (fun _ => "secret") (fun _ => "1.0")
    (with_raw_payload
       (create (mkWorld "2026-01-01T00:00:00" 7) "audio" [1; 2; 3]%N
          "microphone" "ENGINE_001") [4; 5]%N)
  = __repr__ (fun _ => "secret") (fun _ => "1.0")
      (create (mkWorld "2026-01-01T00:00:00" 7) "audio" [1; 2; 3]%N
         "microphone" "ENGINE_001").
Proof.
  apply (repr_hides_binary_payload (list N) (fun _ => "secret")
           (fun _ => "1.0")
           (create (mkWorld "2026-01-01T00:00:00" 7) "audio" [1; 2; 3]%N
              "microphone" "ENGINE_001") [4; 5]%N).
  reflexivity.
Defined.

(** X4.  For every other [payload_type] the payload is printed in full:
    two messages that differ in their payload only have the same
    [__repr__] only if their payloads print the same. *)
Theorem repr_shows_other_payload
    (Any : Type) (str_any : Any -> string) (str_float : Q -> string)
    (m : t Any) (raw : Any) :
  payload_type m <> "binary" ->
  __repr__ str_any str_float (with_raw_payload m raw)
  = __repr__ str_any str_float m ->
  str_any raw = str_any (raw_payload m).
Proof.
  intros Hb H. unfold __repr__, with_raw_payload in H. simpl in H.
  destruct (String.eqb_spec (payload_type m) "binary") as [E|_];
    [contradiction|].
  injection H as H.
  repeat (apply string_facts.append_inv_head in H;
          try (simpl in H; injection H as H)).
  apply string_facts.append_inv_tail in H. exact H.
Qed.

Lemma repr_shows_other_payload_witness :
  (fun s : string => s) "hello"
  = (fun s : string => s)
      (raw_payload (create (mkWorld "2026-01-01T00:00:00" 7) "text" "hello"
                      "pc" "ENGINE_001")).
Proof.
  apply (repr_shows_other_payload string (fun s => s) (fun _ => "1.0")
           (create (mkWorld "2026-01-01T00:00:00" 7) "text" "hello"
              "pc" "ENGINE_001") "hello").
  - vm_compute. discriminate.
  - reflexivity.
Defined.

End message_extras.

(** ** Blocks: sequencing *)

Module Py_laws.

Import Py.
Local Open Scope list_scope.

Section Blocks.

Variable Ev : Type.

Lemma bind_val {A B} (m : M Ev A) (k : A -> M Ev B) (a : A) :
  result m = Val a ->
  bind m k = (trace m ++ trace (k a), result (k a)).
Proof. unfold bind, trace, result. intros ->. reflexivity. Qed.

Lemma bind_raise {A B} (m : M Ev A) (k : A -> M Ev B) (e : BaseException) :
  result m = Raise e -> bind m k = (trace m, Raise e).
Proof. unfold bind, trace, result. intros ->. reflexivity. Qed.

Lemma trace_pair {A} (t : list Ev) (r : Res A) : trace (t, r) = t.
Proof. reflexivity. Qed.

Lemma result_pair {A} (t : list Ev) (r : Res A) : result (t, r) = r.
Proof. reflexivity. Qed.

Lemma bind_ret {A B} (a : A) (k : A -> M Ev B) : bind (ret a) k = k a.
Proof. unfold bind, ret. simpl. destruct (k a); reflexivity. Qed.

Lemma bind_ext {A B} (m : M Ev A) (k k' : A -> M Ev B) :
  (forall a, k a = k' a) -> bind m k = bind m k'.
Proof. intros H. unfold bind. destruct (snd m); rewrite ?H; reflexivity. Qed.

(** A loop whose test always reads true never completes: it is still
    running, or it has raised. *)
Lemma while_true_never_returns {O} (body : O -> M Ev unit) (obs : list O) :
  result (while (fun _ => true) body obs) = Running
  \/ exists e, result (while (fun _ => true) body obs) = Raise e.
Proof.
  unfold result. induction obs as [|o obs IH]; simpl; [auto|].
  destruct (snd (body o)); simpl; eauto.
Qed.

End Blocks.

End Py_laws.

(** ** The listener loop: errors, gates and what is forwarded *)

Module loop_extras.

Import Py ListenerLoop Forwarded loop_facts.
Local Open Scope list_scope.

Section Loop.

Variables Capture Message : Type.

Abbreviation Cycle := (Cycle Capture Message).
Abbreviation Event := (Event Capture Message).

Implicit Types (listener : Listener) (c : Cycle) (pre rest obs : list Cycle).

(** X5.  An exception raised by [normalizer.normalize] is not handled:
    it leaves [listener_loop] and ends it, and [gateway.forward] is not
    called for that capture. *)
Theorem normalize_error_ends_loop
    listener pre c rest (msg : Capture) (e : BaseException) :
  result (listener_loop listener pre) = Running ->
  engine_on c = true ->
  gates_open listener c = true ->
  listen c = Captured msg ->
  normalize c msg = inr e ->
  listener_loop listener (pre ++ c :: rest)
  = (trace (listener_loop listener pre) ++ [Listen; Normalize msg], Raise e).
Proof.
  intros Hpre Hon Hg Hl Hn.
  pose proof (body_gates_open _ _ _ _ Hg) as Hb. rewrite Hl, Hn in Hb.
  rewrite (loop_pass_raise _ _ _ _ _ _ e Hpre Hon); rewrite Hb; auto.
Qed.

(** X6.  [except Exception] does not catch a [KeyboardInterrupt] raised
    by [listener.listen()]: nothing is printed and the loop ends with
    it. *)
Theorem keyboard_interrupt_ends_loop listener pre c rest :
  result (listener_loop listener pre) = Running ->
  engine_on c = true ->
  gates_open listener c = true ->
  listen c = ListenRaises KeyboardInterrupt ->
  listener_loop listener (pre ++ c :: rest)
  = (trace (listener_loop listener pre) ++ [Listen], Raise KeyboardInterrupt).
Proof.
  intros Hpre Hon Hg Hl.
  pose proof (body_gates_open _ _ _ _ Hg) as Hb. rewrite Hl in Hb.
  rewrite (loop_pass_raise _ _ _ _ _ _ KeyboardInterrupt Hpre Hon);
    rewrite Hb; auto.
Qed.

Lemma body_counts listener c :
  let t := trace (listener_loop_body listener c) in
  (count_Forward t <= count_Normalize t)%nat
  /\ (count_Normalize t <= count_Listen t)%nat
  /\ (count_Listen t <= 1)%nat.
Proof.
  destruct (gates_open listener c) eqn:Hg.
  - rewrite (body_gates_open _ _ _ _ Hg).
    destruct (listen c) as [msg| |[message|]];
      try (cbv; repeat split; lia).
    destruct (normalize c msg) as [m|e]; try (cbv; repeat split; lia).
    destruct (forward c m) as [[]|e]; cbv; repeat split; lia.
  - destruct (closed_gate_exists _ _ _ _ Hg) as (k & Hk & Hf).
    rewrite (body_gate_closed _ _ _ k _ Hk Hf). cbv. repeat split; lia.
Qed.

Lemma count_Listen_app (t u : list Event) :
  count_Listen (t ++ u) = (count_Listen t + count_Listen u)%nat.
Proof. unfold count_Listen. now rewrite filter_app, length_app. Qed.

Lemma count_Normalize_app (t u : list Event) :
  count_Normalize (t ++ u) = (count_Normalize t + count_Normalize u)%nat.
Proof. unfold count_Normalize. now rewrite filter_app, length_app. Qed.

Lemma count_Forward_app (t u : list Event) :
  count_Forward (t ++ u) = (count_Forward t + count_Forward u)%nat.
Proof. unfold count_Forward. now rewrite filter_app, length_app. Qed.

(** X7.  In every run of the loop there is at most one [listen()] per
    pass, every [normalize] follows a [listen()] of its own, and every
    [forward] a [normalize] of its own: the loop never forwards more
    messages than it captured. *)
Theorem forwards_bounded_by_captures listener obs :
  let t := trace (listener_loop listener obs) in
  (count_Forward t <= count_Normalize t)%nat
  /\ (count_Normalize t <= count_Listen t)%nat
  /\ (count_Listen t <= length obs)%nat.
Proof.
  cbv zeta. induction obs as [|c obs (IH1 & IH2 & IH3)].
  - cbv. repeat split; lia.
  - destruct (body_counts listener c) as (B1 & B2 & B3). cbv zeta in *.
    destruct (engine_on c) eqn:Hon.
    + destruct (result (listener_loop_body listener c)) as [[]| |e|] eqn:Hr.
      * rewrite (loop_cons_next _ _ _ _ _ Hon (or_introl Hr)).
        unfold trace in *. cbn [fst].
        rewrite count_Forward_app, count_Normalize_app, count_Listen_app.
        cbn [length]. repeat split; lia.
      * rewrite (loop_cons_next _ _ _ _ _ Hon (or_intror Hr)).
        unfold trace in *. cbn [fst].
        rewrite count_Forward_app, count_Normalize_app, count_Listen_app.
        cbn [length]. repeat split; lia.
      * rewrite (loop_cons_raise _ _ _ _ _ e Hon Hr).
        unfold trace in *. cbn [fst length]. repeat split; lia.
      * exfalso. exact (body_not_running _ _ listener c Hr).
    + rewrite (loop_cons_exit _ _ _ _ _ Hon). cbv. repeat split; lia.
Qed.

Lemma body_same_for listener c c' :
  same_for listener c c' ->
  listener_loop_body listener c = listener_loop_body listener c'.
Proof.
  intros (_ & Hl & Hn & Hf & Hk).
  assert (Hgate : forall k,
            isinstance listener k && negb (enable_flag k c)
            = isinstance listener k && negb (enable_flag k c')).
  { intros k. destruct (isinstance listener k) eqn:E; [|reflexivity].
    rewrite (Hk k E). reflexivity. }
  pose proof (Hgate TextListener) as G1.
  pose proof (Hgate AudioListener) as G2.
  pose proof (Hgate EventListener) as G3.
  pose proof (Hgate SignalListener) as G4.
  simpl in G1, G2, G3, G4.
  unfold listener_loop_body, listener_listen.
  rewrite G1, G2, G3, G4, Hl.
  destruct (isinstance listener TextListener && negb (text_enabled c'));
    [reflexivity|].
  destruct (isinstance listener AudioListener && negb (audio_enabled c'));
    [reflexivity|].
  destruct (isinstance listener EventListener && negb (events_enabled c'));
    [reflexivity|].
  destruct (isinstance listener SignalListener && negb (signals_enabled c'));
    [reflexivity|].
  destruct (listen c') as [msg| |[message|]]; try reflexivity.
  unfold bind, try_except, call, when, ret; simpl.
  rewrite (Hn msg). destruct (normalize c' msg) as [m|e]; [|reflexivity].
  simpl. rewrite (Hf m). reflexivity.
Qed.

(** X8.  The loop of a listener reads only the enable flags of the
    classes the listener is an instance of: runs that differ in the other
    channels' flags only are the same run. *)
Theorem other_flags_ignored listener obs (obs' : list Cycle) :
  Forall2 (same_for listener) obs obs' ->
  listener_loop listener obs = listener_loop listener obs'.
Proof.
  induction 1 as [|c c' obs obs' Hc _ IH]; [reflexivity|].
  unfold listener_loop in *. simpl.
  rewrite (body_same_for _ _ _ Hc), IH.
  destruct Hc as (-> & _). reflexivity.
Qed.

(** X9.  A listener that is an instance of none of the four listener
    classes is never gated: with [engine_on] true its [listen()] is
    called whatever the four enable flags read. *)
Theorem plain_listener_never_gated listener c rest :
  (forall k, isinstance listener k = false) ->
  engine_on c = true ->
  exists t,
    trace (listener_loop listener (c :: rest)) = Listen :: t.
Proof.
  intros Hplain Hon.
  assert (Hg : gates_open listener c = true)
    by (unfold gates_open; simpl; rewrite !Hplain; reflexivity).
  pose proof (body_gates_open _ _ _ _ Hg) as Hb.
  assert (Ht : exists t',
            trace (listener_loop_body listener c) = Listen :: t').
  { rewrite Hb. unfold trace.
    destruct (listen c) as [msg| |[message|]]; simpl; eauto.
    destruct (normalize c msg) as [m|e]; simpl; eauto.
    destruct (forward c m) as [[]|e]; simpl; eauto. }
  destruct Ht as [t' Ht]. clear Hb.
  destruct (result (listener_loop_body listener c))
    as [[]| |e|] eqn:Hr.
  - rewrite (loop_cons_next _ _ _ _ _ Hon (or_introl Hr)).
    rewrite Py_laws.trace_pair, Ht. simpl. eauto.
  - rewrite (loop_cons_next _ _ _ _ _ Hon (or_intror Hr)).
    rewrite Py_laws.trace_pair, Ht. simpl. eauto.
  - rewrite (loop_cons_raise _ _ _ _ _ e Hon Hr).
    rewrite Py_laws.trace_pair, Ht. eauto.
  - exfalso. exact (body_not_running _ _ _ c Hr).
Qed.

(** X10.  Messages reach the gateway in the order of their capture, each
    once: over passes that each deliver a capture or nothing, the
    messages forwarded are the normalized captures, in order. *)
Theorem forwarded_in_capture_order
    listener obs (ps : list (option (Capture * Message))) :
  Forall2 (pass_delivers listener) obs ps ->
  forwarded (trace (listener_loop listener obs))
  = flat_map (fun p => match p with Some (_, m) => [m] | None => [] end) ps
  /\ result (listener_loop listener obs) = Running.
Proof.
  induction 1 as [|c p obs ps [Hon Hp] _ [IHt IHr]]; [split; reflexivity|].
  assert (Hb : (result (listener_loop_body listener c) = Val tt
                \/ result (listener_loop_body listener c) = Continue)
               /\ forwarded (trace (listener_loop_body listener c))
                  = match p with Some (_, m) => [m] | None => [] end).
  { destruct p as [[msg m]|].
    - destruct Hp as (Hg & Hl & Hn & Hf).
      rewrite (body_gates_open _ _ _ _ Hg), Hl, Hn, Hf. simpl. auto.
    - destruct (gates_open listener c) eqn:Hg.
      + rewrite (body_gates_open _ _ _ _ Hg).
        destruct Hp as [Hp | [Hp | [message Hp]]];
          [discriminate Hp|rewrite Hp; simpl; auto ..].
      + destruct (closed_gate_exists _ _ _ _ Hg) as (k & Hk & Hf).
        rewrite (body_gate_closed _ _ _ k _ Hk Hf). simpl. auto. }
  destruct Hb as [Hr Hfw].
  rewrite (loop_cons_next _ _ _ _ _ Hon Hr).
  unfold trace at 1, result at 1. simpl fst. simpl snd.
  unfold forwarded in *. rewrite flat_map_app, Hfw, IHt. simpl.
  split; [reflexivity|exact IHr].
Qed.

End Loop.

Lemma normalize_error_ends_loop_witness :
  listener_loop text_listener
    [mkCycle true true true true true (Captured "hi")
       (fun _ : string => inr (Exception "bad capture") : string + BaseException)
       (fun _ => inl tt);
     pass true (Captured "again") (inl tt)]
  = ([Listen; Normalize "hi"], Raise (Exception "bad capture")).
Proof.
  exact (normalize_error_ends_loop string string text_listener []
           (mkCycle true true true true true (Captured "hi")
              (fun _ => inr (Exception "bad capture")) (fun _ => inl tt))
           [pass true (Captured "again") (inl tt)] "hi"
           (Exception "bad capture") eq_refl eq_refl eq_refl eq_refl eq_refl).
Defined.

Lemma keyboard_interrupt_ends_loop_witness :
  listener_loop text_listener
    [pass true (ListenRaises KeyboardInterrupt) (inl tt);
     pass true (Captured "again") (inl tt)]
  = ([Listen], Raise KeyboardInterrupt).
Proof.
  exact (keyboard_interrupt_ends_loop string string text_listener []
           (pass true (ListenRaises KeyboardInterrupt) (inl tt))
           [pass true (Captured "again") (inl tt)]
           eq_refl eq_refl eq_refl eq_refl).
Defined.

Lemma other_flags_ignored_witness :
  listener_loop text_listener
    [mkCycle true true false false false (Captured "hi")
       (fun msg : string => inl msg : string + BaseException)
       (fun _ => inl tt)]
  = listener_loop text_listener [pass true (Captured "hi") (inl tt)].
Proof.
  apply (other_flags_ignored string string text_listener).
  repeat constructor.
  intros [] H; try discriminate H; reflexivity.
Defined.

Lemma plain_listener_never_gated_witness :
  exists t,
    trace (listener_loop plain_listener
             [mkCycle true false false false false (Captured "hi")
                (fun msg : string => inl msg : string + BaseException)
                (fun _ => inl tt)])
    = Listen :: t.
Proof.
  apply (plain_listener_never_gated string string plain_listener
           (mkCycle true false false false false (Captured "hi")
              (fun msg => inl msg) (fun _ => inl tt)) []).
  - intros k. reflexivity.
  - reflexivity.
Defined.

Lemma forwarded_in_capture_order_witness :
  forwarded
    (trace (listener_loop text_listener
              [pass true (Captured "a") (inl tt);
               pass false (Captured "skipped") (inl tt);
               pass true Absent (inl tt);
               pass true (Captured "b") (inl tt)]))
  = ["a"; "b"].
Proof.
  apply (forwarded_in_capture_order string string text_listener
           [pass true (Captured "a") (inl tt);
            pass false (Captured "skipped") (inl tt);
            pass true Absent (inl tt);
            pass true (Captured "b") (inl tt)]
           [Some ("a", "a"); None; None; Some ("b", "b")]).
  constructor; [repeat split|].
  constructor; [split; [reflexivity|left; reflexivity]|].
  constructor; [split; [reflexivity|right; left; reflexivity]|].
  constructor; [repeat split|constructor].
Defined.

End loop_extras.

(** ** The health monitor *)

Module monitor_extras.

Import Py Monitor.
Local Open Scope list_scope.

Lemma count_app {A} (p : A -> bool) (l l' : list A) :
  count p (l ++ l') = (count p l + count p l')%nat.
Proof. unfold count. now rewrite filter_app, length_app. Qed.

Lemma count_cons {A} (p : A -> bool) (x : A) (l : list A) :
  count p (x :: l) = ((if p x then 1 else 0) + count p l)%nat.
Proof. unfold count. simpl. destruct (p x); reflexivity. Qed.

Lemma monitor_engine_answers (o : Polled) :
  answers o = true ->
  result (monitor_engine o) = Val tt
  /\ count is_IsRunning (trace (monitor_engine o))
     = (if has_is_running o then 1 else 0)%nat
  /\ count is_GetStatus (trace (monitor_engine o))
     = (if has_get_status o then 1 else 0)%nat
  /\ count is_Print (trace (monitor_engine o))
     = ((if not_running o then 1 else 0)
        + (if has_get_status o then 1 else 0))%nat.
Proof.
  destruct o as [n [[[|]|e]|] [[d|e']|]]; intros H; try discriminate H;
    repeat split; reflexivity.
Qed.

Lemma monitor_engine_raises (o : Polled) :
  answers o = false -> exists e, result (monitor_engine o) = Raise e.
Proof.
  destruct o as [n [[[|]|e]|] [[d|e']|]]; intros H; try discriminate H;
    eexists; reflexivity.
Qed.

Lemma monitor_engine_not_running (o : Polled) :
  result (monitor_engine o) <> Running.
Proof.
  destruct o as [n [[[|]|e]|] [[d|e']|]]; discriminate.
Qed.

Lemma for_answers (engines : list Polled) :
  Forall (fun o => answers o = true) engines ->
  let m := for_ engines monitor_engine in
  result m = Val tt
  /\ count is_IsRunning (trace m) = count has_is_running engines
  /\ count is_GetStatus (trace m) = count has_get_status engines
  /\ count is_Print (trace m)
     = (count not_running engines + count has_get_status engines)%nat.
Proof.
  induction 1 as [|o engines Ho _ (IH0 & IH1 & IH2 & IH3)];
    cbv zeta in *; unfold trace, result in *.
  - repeat split; reflexivity.
  - destruct (monitor_engine_answers o Ho) as (E0 & E1 & E2 & E3).
    unfold trace, result in *. simpl for_. unfold bind. rewrite E0.
    cbn [fst snd].
    rewrite !count_app, IH1, IH2, IH3, E1, E2, E3, !count_cons.
    repeat split; [exact IH0|lia].
Qed.

(** X11.  [monitor_engines] never returns: after any number of rounds it
    is still polling, unless a call on a controller has raised. *)
Theorem monitor_never_returns (rounds : list (list Polled)) :
  result (monitor_engines rounds) = Running
  \/ exists e, result (monitor_engines rounds) = Raise e.
Proof. apply Py_laws.while_true_never_returns. Qed.

(** X12.  In a round in which every call answers, each controller that
    has [is_running] is asked once, each that has [get_status] is asked
    once, and what is printed is one warning for each controller that is
    not running and one status line for each that has [get_status]. *)
Theorem monitor_round_polls_once (engines : list Polled) :
  Forall (fun o => answers o = true) engines ->
  let t := trace (monitor_round engines) in
  result (monitor_round engines) = Val tt
  /\ count is_IsRunning t = count has_is_running engines
  /\ count is_GetStatus t = count has_get_status engines
  /\ count is_Print t
     = (count not_running engines + count has_get_status engines)%nat.
Proof.
  intros H. destruct (for_answers engines H) as (F0 & F1 & F2 & F3).
  cbv zeta in *. unfold trace, result in *.
  unfold monitor_round, sleep, emit, bind. cbn [fst snd].
  rewrite !count_app, F1, F2, F3. repeat split; assumption.
Qed.

Lemma monitor_round_polls_once_witness :
  count is_Print
    (trace (monitor_round
              [mkPolled "Engine_003" (Some (inl false))
                 (Some (inl [("status", "stopped")]));
               mkPolled "Engine_002" None None;
               mkPolled "Engine_001" (Some (inl true)) None]))
  = 2%nat.
Proof.
  apply (monitor_round_polls_once
           [mkPolled "Engine_003" (Some (inl false))
              (Some (inl [("status", "stopped")]));
            mkPolled "Engine_002" None None;
            mkPolled "Engine_001" (Some (inl true)) None]).
  repeat constructor.
Defined.

(** X13.  A controller that has neither [is_running] nor [get_status] is
    passed over: a round over the engines is the round over those that
    have one of the two. *)
Theorem monitor_round_skips_bare (engines : list Polled) :
  monitor_round
    (filter (fun o => has_is_running o || has_get_status o) engines)
  = monitor_round engines.
Proof.
  unfold monitor_round. apply Py_laws.bind_ext. intros _.
  induction engines as [|o engines IH]; [reflexivity|].
  cbn [filter].
  destruct (has_is_running o || has_get_status o) eqn:E.
  - cbn [for_]. apply Py_laws.bind_ext. intros _. exact IH.
  - rewrite IH. cbn [for_].
    destruct o as [n [r|] [s|]]; try discriminate E.
    unfold monitor_engine. cbn [is_running get_status].
    rewrite !Py_laws.bind_ret. reflexivity.
Qed.

Lemma round_answers (engines : list Polled) :
  Forall (fun o => answers o = true) engines ->
  result (monitor_round engines) = Val tt.
Proof. intros H. apply (monitor_round_polls_once engines H). Qed.

Lemma for_not_running (engines : list Polled) :
  result (for_ engines monitor_engine) <> Running.
Proof.
  induction engines as [|o engines IH]; [discriminate|].
  simpl. unfold bind, result in *.
  pose proof (monitor_engine_not_running o) as Ho. unfold result in Ho.
  destruct (snd (monitor_engine o)); simpl; try discriminate; auto.
Qed.

Lemma round_not_running (engines : list Polled) :
  result (monitor_round engines) <> Running.
Proof.
  unfold monitor_round, sleep, emit, bind, result. cbn [fst snd].
  exact (for_not_running engines).
Qed.

Lemma rounds_answer_running (rounds : list (list Polled)) :
  Forall (Forall (fun o => answers o = true)) rounds ->
  result (monitor_engines rounds) = Running.
Proof.
  induction 1 as [|r rounds Hr _ IH]; [reflexivity|].
  unfold monitor_engines in *.
  rewrite Py_facts.while_next; auto using round_answers.
Qed.

Lemma for_cut (good more : list Polled) (o : Polled) :
  Forall (fun o => answers o = true) good ->
  answers o = false ->
  for_ (good ++ o :: more) monitor_engine
  = for_ (good ++ [o]) monitor_engine
  /\ exists e, result (for_ (good ++ [o]) monitor_engine) = Raise e.
Proof.
  intros Hgood Ho. destruct (monitor_engine_raises o Ho) as [e He].
  induction Hgood as [|g good Hg _ [IH1 [e' IH2]]].
  - simpl. rewrite !(Py_laws.bind_raise _ _ _ e He). split; [reflexivity|].
    exists e. reflexivity.
  - simpl. destruct (monitor_engine_answers g Hg) as (G0 & _).
    rewrite !(Py_laws.bind_val _ _ _ tt G0), IH1. split; [reflexivity|].
    exists e'. unfold result in *. cbn [snd]. exact IH2.
Qed.

(** X14.  The monitor has no handler: the first call on a controller
    that raises ends it with that exception.  The controllers after that
    one in [engines.items()] are not polled, and no later round runs. *)
Theorem monitor_error_ends_monitor
    (pre rest : list (list Polled)) (good more : list Polled) (o : Polled) :
  Forall (Forall (fun o => answers o = true)) pre ->
  Forall (fun o => answers o = true) good ->
  answers o = false ->
  monitor_engines (pre ++ (good ++ o :: more) :: rest)
  = monitor_engines (pre ++ [good ++ [o]])
  /\ exists e,
       result (monitor_engines (pre ++ (good ++ o :: more) :: rest))
       = Raise e.
Proof.
  intros Hpre Hgood Ho.
  destruct (for_cut good more o Hgood Ho) as [Hcut [e He]].
  assert (Hround : monitor_round (good ++ o :: more)
                   = monitor_round (good ++ [o])).
  { unfold monitor_round. apply Py_laws.bind_ext. intros _. exact Hcut. }
  assert (Hres : result (monitor_round (good ++ [o])) = Raise e).
  { unfold monitor_round, sleep, emit, bind, result. cbn [fst snd].
    exact He. }
  pose proof (rounds_answer_running pre Hpre) as Hrun.
  unfold monitor_engines in *.
  rewrite !(Py_facts.while_app _ _ _ _ _ round_not_running Hrun).
  rewrite (Py_facts.while_raise _ _ _ _ rest e eq_refl);
    [|rewrite Hround; exact Hres].
  rewrite (Py_facts.while_raise _ _ _ _ [] e eq_refl Hres).
  rewrite Hround. split; [reflexivity|]. exists e. reflexivity.
Qed.

Lemma monitor_error_ends_monitor_witness :
  monitor_engines
    [[mkPolled "Engine_003" (Some (inl true)) None;
      mkPolled "Engine_004" (Some (inr (Exception "connection lost"))) None;
      mkPolled "Engine_005" (Some (inl false)) None];
     [mkPolled "Engine_003" (Some (inl false)) None]]
  = ([Sleep 10; IsRunning "Engine_003"; IsRunning "Engine_004"],
     Raise (Exception "connection lost")).
Proof.
  apply (monitor_error_ends_monitor []
           [[mkPolled "Engine_003" (Some (inl false)) None]]
           [mkPolled "Engine_003" (Some (inl true)) None]
           [mkPolled "Engine_005" (Some (inl false)) None]
           (mkPolled "Engine_004"
              (Some (inr (Exception "connection lost"))) None)).
  - constructor.
  - repeat constructor.
  - reflexivity.
Defined.

End monitor_extras.

(** ** The status round of [main] *)

Module status_extras.

Import Py Monitor monitor_extras.
Local Open Scope list_scope.

Lemma dict_get_missing (d : list (string * string)) (key default : string) :
  (forall v, ~ In (key, v) d) -> dict_get d key default = default.
Proof.
  induction d as [|[k v] d IH]; intros H; [reflexivity|].
  simpl. destruct (String.eqb_spec k key) as [->|_].
  - exfalso. apply (H v). left. reflexivity.
  - apply IH. intros v' Hin. apply (H v'). right. exact Hin.
Qed.

(** X15.  The status round of [main] looks at [get_status] only for a
    controller that has [is_running]: controllers without [is_running]
    add nothing to [status_msgs] and get no call, whether or not they have
    [get_status]. *)
Theorem root_status_needs_is_running (engines : list Polled) :
  root_status_msgs (filter has_is_running engines)
  = root_status_msgs engines.
Proof.
  induction engines as [|o engines IH]; [reflexivity|].
  cbn [filter]. destruct (has_is_running o) eqn:E.
  - cbn [root_status_msgs]. apply Py_laws.bind_ext. intros msgs.
    rewrite IH. reflexivity.
  - rewrite IH. cbn [root_status_msgs].
    destruct o as [n [r|] s]; [discriminate E|].
    unfold root_status_engine. cbn [is_running].
    rewrite Py_laws.bind_ret.
    unfold bind, ret. destruct (root_status_msgs engines) as [t [msgs| |e|]];
      simpl; rewrite ?app_nil_r; reflexivity.
Qed.

Lemma root_status_engine_answers (o : Polled) :
  answers o = true ->
  exists msgs,
    result (root_status_engine o) = Val msgs
    /\ length msgs = (if has_is_running o then 1 else 0)%nat
    /\ count is_IsRunning (trace (root_status_engine o))
       = (if has_is_running o then 1 else 0)%nat.
Proof.
  destruct o as [n [[[|]|e]|] [[d|e']|]]; intros H; try discriminate H;
    eexists; repeat split; reflexivity.
Qed.

(** X16.  In a status round in which every call answers, [status_msgs]
    gets exactly one message for each controller that has [is_running],
    and each of these is asked [is_running()] once. *)
Theorem root_status_one_message_each (engines : list Polled) :
  Forall (fun o => answers o = true) engines ->
  exists msgs,
    result (root_status_msgs engines) = Val msgs
    /\ length msgs = count has_is_running engines
    /\ count is_IsRunning (trace (root_status_msgs engines))
       = count has_is_running engines.
Proof.
  induction 1 as [|o engines Ho _ (more & IH0 & IH1 & IH2)].
  - exists []. repeat split; reflexivity.
  - destruct (root_status_engine_answers o Ho) as (msgs & E0 & E1 & E2).
    exists (msgs ++ more). unfold trace, result in *.
    cbn [root_status_msgs]. unfold bind, ret. rewrite E0. cbn [fst snd].
    rewrite IH0. cbn [fst snd].
    rewrite app_nil_r, count_app, length_app, !count_cons, E1, E2, IH1, IH2.
    repeat split.
Qed.

Lemma root_status_one_message_each_witness :
  exists msgs,
    result (root_status_msgs
              [mkPolled "Engine_003" (Some (inl true))
                 (Some (inl [("status", "active")]));
               mkPolled "Engine_002" None (Some (inl []));
               mkPolled "Engine_004" (Some (inl false)) None])
    = Val msgs
    /\ length msgs = 2%nat.
Proof.
  destruct (root_status_one_message_each
              [mkPolled "Engine_003" (Some (inl true))
                 (Some (inl [("status", "active")]));
               mkPolled "Engine_002" None (Some (inl []));
               mkPolled "Engine_004" (Some (inl false)) None])
    as (msgs & H0 & H1 & _).
  - repeat constructor.
  - exists msgs. split; [exact H0|exact H1].
Defined.

(** X17.  A status dict without a ["status"] key is reported with a
    default, and the two pollers use different ones: the health monitor
    prints ["unknown"], the status round of [main] records ["running"]. *)
Theorem missing_status_key_defaults
    (o : Polled) (status : list (string * string)) :
  is_running o = Some (inl true) ->
  get_status o = Some (inl status) ->
  (forall v, ~ In ("status"%string, v) status) ->
  monitor_engine o
  = ([IsRunning (name o); GetStatus (name o);
      Print (status_line (name o) "unknown")], Val tt)
  /\ root_status_engine o
     = ([IsRunning (name o); GetStatus (name o)],
        Val [(name o ++ ": ✓ (running)")%string]).
Proof.
  intros Hr Hs Hmiss.
  unfold monitor_engine, root_status_engine. rewrite Hr, Hs.
  unfold bind, call, when, print, emit, ret. cbn.
  rewrite !(dict_get_missing _ _ _ Hmiss). split; reflexivity.
Qed.

Lemma missing_status_key_defaults_witness :
  monitor_engine
    (mkPolled "Engine_005" (Some (inl true)) (Some (inl [("mode", "idle")])))
  = ([IsRunning "Engine_005"; GetStatus "Engine_005";
      Print "[Health Monitor] Engine_005: unknown"], Val tt).
Proof.
  apply (missing_status_key_defaults
           (mkPolled "Engine_005" (Some (inl true))
              (Some (inl [("mode", "idle")])))
           [("mode", "idle")] eq_refl eq_refl).
  intros v [H|[]]. discriminate H.
Defined.

End status_extras.

(** ** [main]: runs that do not reach or do not finish the shut-down *)

Module main_extras.

Import Py RootMain RootCalls main_facts.
Local Open Scope list_scope.

Lemma cleanup_eq : cleanup = (join_calls, Val tt).
Proof. reflexivity. Qed.

Lemma startup_ok (engines : Engines) :
  (forall x, start engines x = inl tt) ->
  startup engines = (startup_calls, Val tt).
Proof.
  intros H. unfold startup. rewrite !H. reflexivity.
Qed.

(** The keep-alive loop only polls and sleeps. *)
Lemma keep_alive_calls (obs : list Tick) :
  Forall (fun c => c = StatusPoll \/ c = Sleep 1)
    (trace (keep_alive obs)).
Proof.
  unfold keep_alive, trace.
  induction obs as [|o obs IH]; simpl; [constructor|].
  destruct (controller_engine_on o); [|constructor].
  unfold keep_alive_body, bind, call.
  destruct (status_round o) as [[]|e1]; simpl;
    [|constructor; [left; reflexivity|constructor]].
  destruct (sleep_1 o) as [[]|e2]; simpl;
    (constructor; [left; reflexivity|]);
    (constructor; [right; reflexivity|]);
    [exact IH|constructor].
Qed.

Lemma keep_alive_no_join (obs : list Tick) :
  filter is_Join (trace (keep_alive obs)) = [].
Proof.
  induction (keep_alive_calls obs) as [|c t [-> | ->] _ IH];
    simpl; auto.
Qed.

Lemma shutdown_no_join (engines : Engines) :
  filter is_Join (trace (shutdown engines)) = [].
Proof.
  destruct (shutdown_cases engines) as (stopped & -> & _ & _).
  simpl. induction stopped as [|x stopped IH]; simpl; auto.
Qed.

(** A run of [main], by how its three stretches end. *)
Lemma main_cases (engines : Engines) (obs : list Tick) :
  (forall x, start engines x = inl tt) ->
  main engines obs
  = match result (keep_alive obs) with
    | Val _ =>
        (startup_calls ++ trace (keep_alive obs) ++ join_calls, Val tt)
    | Raise KeyboardInterrupt =>
        match result (shutdown engines) with
        | Val _ =>
            (startup_calls ++ trace (keep_alive obs)
               ++ trace (shutdown engines) ++ join_calls, Val tt)
        | Continue =>
            (startup_calls ++ trace (keep_alive obs)
               ++ trace (shutdown engines), Continue)
        | Raise e =>
            (startup_calls ++ trace (keep_alive obs)
               ++ trace (shutdown engines), Raise e)
        | Running =>
            (startup_calls ++ trace (keep_alive obs)
               ++ trace (shutdown engines), Running)
        end
    | Raise (Exception message) =>
        (startup_calls ++ trace (keep_alive obs), Raise (Exception message))
    | Continue => (startup_calls ++ trace (keep_alive obs), Continue)
    | Running => (startup_calls ++ trace (keep_alive obs), Running)
    end.
Proof.
  intros Hs. rewrite main_blocks, (startup_ok _ Hs), cleanup_eq.
  unfold keep_alive, trace, result.
  set (sh := shutdown engines). clearbody sh. destruct sh as [sht shr].
  destruct (while controller_engine_on keep_alive_body obs) as [ka r].
  unfold bind, try_except. cbn [fst snd].
  destruct r as [[]| |[message|]|]; cbn [fst snd is_KeyboardInterrupt];
    try reflexivity.
  destruct shr as [[]| |e|]; cbn [fst snd]; rewrite <- ?app_assoc;
    reflexivity.
Qed.

(** X18.  When the [start()] of one of Engines 003 to 006 raises, [main]
    ends with an exception there: it has made [start()] calls only, no
    thread is started, nothing is stopped and nothing is joined; the
    engines started before stay started. *)
Theorem failed_start_aborts
    (engines : Engines) (obs : list Tick) (x : Engine) (e : BaseException) :
  x <> Engine_002 ->
  start engines x = inr e ->
  (exists e', result (main engines obs) = Raise e')
  /\ forallb is_Start (trace (main engines obs)) = true
  /\ (length (trace (main engines obs)) <= 4)%nat.
Proof.
  intros Hx He. unfold main.
  destruct (start engines Engine_003) as [[]|e3] eqn:E3;
    [|split; [eexists; reflexivity|split; [reflexivity|simpl; lia]]].
  destruct (start engines Engine_004) as [[]|e4] eqn:E4;
    [|split; [eexists; reflexivity|split; [reflexivity|simpl; lia]]].
  destruct (start engines Engine_005) as [[]|e5] eqn:E5;
    [|split; [eexists; reflexivity|split; [reflexivity|simpl; lia]]].
  destruct (start engines Engine_006) as [[]|e6] eqn:E6;
    [|split; [eexists; reflexivity|split; [reflexivity|simpl; lia]]].
  destruct x; congruence.
Qed.

Lemma failed_start_aborts_witness :
  forallb is_Start
    (trace (main (mkEngines
                    (fun x => match x with
                              | Engine_004 => inr (Exception "port in use")
                              | _ => inl tt
                              end)
                    (fun _ => inl tt))
              ctrl_c))
  = true.
Proof.
  apply (failed_start_aborts
           (mkEngines
              (fun x => match x with
                        | Engine_004 => inr (Exception "port in use")
                        | _ => inl tt
                        end)
              (fun _ => inl tt))
           ctrl_c Engine_004 (Exception "port in use")).
  - discriminate.
  - reflexivity.
Defined.

(** X19.  When the keep-alive loop ends because [controller.engine_on]
    reads false, without a [KeyboardInterrupt], [main] joins the listener
    threads and [me_thread] and returns, and it has called no [stop()] and
    has not set [engine_on]: the shut-down sequence is in the
    [KeyboardInterrupt] handler only. *)
Theorem engine_off_without_interrupt
    (engines : Engines) (obs : list Tick) :
  (forall x, start engines x = inl tt) ->
  result (keep_alive obs) = Val tt ->
  main engines obs
  = (startup_calls ++ trace (keep_alive obs) ++ join_calls, Val tt)
  /\ stop_order (trace (main engines obs)) = []
  /\ shutdown_calls (trace (main engines obs)) = [].
Proof.
  intros Hs Hk. rewrite (main_cases _ _ Hs), Hk.
  split; [reflexivity|].
  destruct (keep_alive_quiet obs) as (_ & K2 & K3).
  unfold trace, keep_alive in *. cbn [fst].
  unfold stop_order, shutdown_calls in *.
  rewrite !flat_map_app, !filter_app, K2, K3. split; reflexivity.
Qed.

Lemma engine_off_without_interrupt_witness :
  main obliging [quiet_tick; off_tick]
  = (startup_calls ++ [StatusPoll; Sleep 1] ++ join_calls, Val tt).
Proof.
  apply (engine_off_without_interrupt obliging [quiet_tick; off_tick]).
  - intros x. reflexivity.
  - reflexivity.
Defined.

Lemma shutdown_raises (engines : Engines) (x : Engine) (e : BaseException) :
  stop engines x = inr e ->
  exists e', result (shutdown engines) = Raise e'.
Proof.
  intros He. unfold shutdown, bind, call, emit, result.
  destruct (stop engines Engine_006) as [[]|e6] eqn:E6; simpl; eauto.
  destruct (stop engines Engine_005) as [[]|e5] eqn:E5; simpl; eauto.
  destruct (stop engines Engine_004) as [[]|e4] eqn:E4; simpl; eauto.
  destruct (stop engines Engine_003) as [[]|e3] eqn:E3; simpl; eauto.
  destruct (stop engines Engine_002) as [[]|e2] eqn:E2; simpl; eauto.
  destruct x; congruence.
Qed.

(** X20.  When a [stop()] raises during the shut-down, the exception
    leaves [main]: the engines after it in the stop order are not stopped
    and no thread is joined. *)
Theorem stop_error_skips_rest
    (engines : Engines) (obs : list Tick) (x : Engine) (e : BaseException) :
  (forall y, start engines y = inl tt) ->
  result (keep_alive obs) = Raise KeyboardInterrupt ->
  stop engines x = inr e ->
  (exists e', result (main engines obs) = Raise e')
  /\ filter is_Join (trace (main engines obs)) = []
  /\ (forall y, precedes x y
                  [Engine_006; Engine_005; Engine_004; Engine_003; Engine_002]
                = true ->
                ~ In y (stop_order (trace (main engines obs)))).
Proof.
  intros Hs Hk He. rewrite (main_cases _ _ Hs), Hk.
  destruct (shutdown_raises _ _ _ He) as [e' Hr]. rewrite Hr.
  split; [exists e'; reflexivity|].
  unfold trace at 1 4. cbn [fst].
  destruct (keep_alive_quiet obs) as (_ & K2 & _).
  fold (keep_alive obs) in K2.
  split.
  - rewrite !filter_app, keep_alive_no_join, shutdown_no_join. reflexivity.
  - intros y Hy. unfold stop_order in *.
    rewrite !flat_map_app, K2. cbn [flat_map startup_calls app].
    clear Hk K2. revert Hr. unfold shutdown, bind, call, emit, trace, result.
    destruct (stop engines Engine_006) as [[]|e6] eqn:E6; simpl.
    2:{ intros _ Hin. destruct x; try congruence;
          destruct y; try discriminate Hy; simpl in Hin; intuition congruence. }
    destruct (stop engines Engine_005) as [[]|e5] eqn:E5; simpl.
    2:{ intros _ Hin. destruct x; try congruence;
          destruct y; try discriminate Hy; simpl in Hin; intuition congruence. }
    destruct (stop engines Engine_004) as [[]|e4] eqn:E4; simpl.
    2:{ intros _ Hin. destruct x; try congruence;
          destruct y; try discriminate Hy; simpl in Hin; intuition congruence. }
    destruct (stop engines Engine_003) as [[]|e3] eqn:E3; simpl.
    2:{ intros _ Hin. destruct x; try congruence;
          destruct y; try discriminate Hy; simpl in Hin; intuition congruence. }
    destruct (stop engines Engine_002) as [[]|e2] eqn:E2; simpl.
    + discriminate.
    + intros _ Hin. destruct x; try congruence;
        destruct y; try discriminate Hy.
Qed.

Lemma stop_error_skips_rest_witness :
  ~ In Engine_003
      (stop_order
         (trace (main (mkEngines
                         (fun _ => inl tt)
                         (fun x => match x with
                                   | Engine_004 => inr (Exception "busy")
                                   | _ => inl tt
                                   end))
                   ctrl_c))).
Proof.
  apply (stop_error_skips_rest
           (mkEngines
              (fun _ => inl tt)
              (fun x => match x with
                        | Engine_004 => inr (Exception "busy")
                        | _ => inl tt
                        end))
           ctrl_c Engine_004 (Exception "busy")).
  - intros y. reflexivity.
  - reflexivity.
  - reflexivity.
  - reflexivity.
Defined.

Lemma main_joining_returns (engines : Engines) (obs : list Tick) :
  main_joining engines (fun _ => inl tt) obs = main engines obs.
Proof. rewrite main_blocks. reflexivity. Qed.

(** The joins made are an initial part of the five, and all five exactly
    when the clean-up completes. *)
Lemma cleanup_joining_cases (join : Thread -> unit + BaseException) :
  exists n,
    trace (cleanup_joining join) = firstn n join_calls
    /\ ((result (cleanup_joining join) = Val tt /\ n = 5%nat)
        \/ (exists e, result (cleanup_joining join) = Raise e)).
Proof.
  unfold cleanup_joining, listeners, for_, bind, call, trace, result.
  destruct (join (listener_thread ListenerLoop.TextListener)) as [[]|e];
    simpl; [|exists 1%nat; split; [reflexivity|right; eauto]].
  destruct (join (listener_thread ListenerLoop.AudioListener)) as [[]|e];
    simpl; [|exists 2%nat; split; [reflexivity|right; eauto]].
  destruct (join (listener_thread ListenerLoop.EventListener)) as [[]|e];
    simpl; [|exists 3%nat; split; [reflexivity|right; eauto]].
  destruct (join (listener_thread ListenerLoop.SignalListener)) as [[]|e];
    simpl; [|exists 4%nat; split; [reflexivity|right; eauto]].
  destruct (join me_thread) as [[]|e]; simpl;
    exists 5%nat; (split; [reflexivity|]); [left; auto|right; eauto].
Qed.

Lemma filter_Join_firstn (n : nat) :
  filter is_Join (firstn n join_calls) = firstn n join_calls.
Proof. do 6 (destruct n as [|n]; [reflexivity|]). reflexivity. Qed.

(** A run of [main_joining]: it stops before the clean-up, having
    joined nothing, or it goes through the clean-up. *)
Lemma main_joining_cases
    (engines : Engines) (join : Thread -> unit + BaseException)
    (obs : list Tick) :
  (forall x, start engines x = inl tt) ->
  (result (main_joining engines join obs) <> Val tt
   /\ filter is_Join (trace (main_joining engines join obs)) = [])
  \/ (exists t0,
        filter is_Join t0 = []
        /\ main_joining engines join obs
           = (t0 ++ trace (cleanup_joining join),
              result (cleanup_joining join))).
Proof.
  intros Hs. unfold main_joining. rewrite (startup_ok _ Hs).
  pose proof (keep_alive_no_join obs) as KJ.
  pose proof (shutdown_no_join engines) as SJ.
  unfold keep_alive, trace, result in *.
  set (cl := cleanup_joining join). clearbody cl. destruct cl as [clt clr].
  set (sh := shutdown engines) in *. clearbody sh. destruct sh as [sht shr].
  destruct (while controller_engine_on keep_alive_body obs) as [ka r].
  unfold bind, try_except. cbn [fst snd] in *.
  destruct r as [[]| |[message|]|]; cbn [fst snd is_KeyboardInterrupt].
  - right. exists (startup_calls ++ ka).
    split; [now rewrite filter_app, KJ|now rewrite app_assoc].
  - left. split; [discriminate|now rewrite filter_app, KJ].
  - left. split; [discriminate|now rewrite filter_app, KJ].
  - destruct shr as [[]| |e|]; cbn [fst snd].
    + right. exists (startup_calls ++ ka ++ sht).
      split; [now rewrite !filter_app, KJ, SJ|now rewrite !app_assoc].
    + left. split; [discriminate|now rewrite !filter_app, KJ, SJ].
    + left. split; [discriminate|now rewrite !filter_app, KJ, SJ].
    + left. split; [discriminate|now rewrite !filter_app, KJ, SJ].
  - left. split; [discriminate|now rewrite filter_app, KJ].
Qed.

(** X21.  With [t.join(timeout=1)] a call that returns or is
    interrupted: the joins a run of [main] makes are an initial part of
    the joins of the four listener threads and then [me_thread], in that
    order; a run that returns has made all five and ends with them; a run
    in which a join raises does not return; and the monitor thread is
    never joined. *)
Theorem joins_in_order
    (engines : Engines) (join : Thread -> unit + BaseException)
    (obs : list Tick) :
  (forall x, start engines x = inl tt) ->
  let run := main_joining engines join obs in
  (exists n, filter is_Join (trace run) = firstn n join_calls)
  /\ (result run = Val tt ->
      filter is_Join (trace run) = join_calls
      /\ exists t, trace run = t ++ join_calls)
  /\ (forall t e, In (Join t) join_calls -> join t = inr e ->
                  result run <> Val tt)
  /\ ~ In (Join monitor_thread) (trace run).
Proof.
  intros Hs. cbv zeta.
  destruct (cleanup_joining_cases join) as (n & Hn & Hcl).
  assert (Hraise : forall t e, In (Join t) join_calls -> join t = inr e ->
                               result (cleanup_joining join) <> Val tt).
  { intros t e Hin Ht.
    unfold cleanup_joining, listeners, for_, bind, call, result.
    simpl in Hin.
    destruct (join (listener_thread ListenerLoop.TextListener))
      as [[]|e1] eqn:E1; simpl; [|discriminate].
    destruct (join (listener_thread ListenerLoop.AudioListener))
      as [[]|e2] eqn:E2; simpl; [|discriminate].
    destruct (join (listener_thread ListenerLoop.EventListener))
      as [[]|e3] eqn:E3; simpl; [|discriminate].
    destruct (join (listener_thread ListenerLoop.SignalListener))
      as [[]|e4] eqn:E4; simpl; [|discriminate].
    destruct (join me_thread) as [[]|e5] eqn:E5; simpl; [|discriminate].
    exfalso.
    repeat (destruct Hin as [Hin|Hin];
            [injection Hin as <-; congruence|]).
    exact Hin. }
  assert (Prefix : exists k,
            filter is_Join (trace (main_joining engines join obs))
            = firstn k join_calls).
  { destruct (main_joining_cases engines join obs Hs)
      as [[_ Hf] | (t0 & Hf & ->)].
    - exists 0%nat. exact Hf.
    - exists n. rewrite Py_laws.trace_pair, filter_app, Hf, Hn.
      apply filter_Join_firstn. }
  split; [exact Prefix|]. split; [|split].
  - intros Hv.
    destruct (main_joining_cases engines join obs Hs)
      as [[Hnv _] | (t0 & Hf & Heq)]; [contradiction|].
    rewrite Heq in *. rewrite Py_laws.result_pair in Hv.
    rewrite Py_laws.trace_pair.
    destruct Hcl as [[_ ->] | [e He]]; [|congruence].
    change (firstn 5 join_calls) with join_calls in Hn. rewrite Hn.
    split; [now rewrite filter_app, Hf|exists t0; reflexivity].
  - intros t e Hin Ht.
    destruct (main_joining_cases engines join obs Hs)
      as [[Hnv _] | (t0 & Hf & ->)]; [exact Hnv|].
    rewrite Py_laws.result_pair. exact (Hraise t e Hin Ht).
  - intros Hin. destruct Prefix as [k Hk].
    assert (Hj : In (Join monitor_thread)
                   (filter is_Join (trace (main_joining engines join obs))))
      by (apply filter_In; split; [exact Hin|reflexivity]).
    rewrite Hk in Hj. clear Hk.
    do 6 (destruct k as [|k]; [simpl in Hj; intuition discriminate|]).
    simpl in Hj. intuition discriminate.
Qed.

Lemma joins_in_order_witness :
  filter is_Join
    (trace (main_joining obliging
              (fun t => match t with
                        | listener_thread ListenerLoop.AudioListener =>
                            inr KeyboardInterrupt
                        | _ => inl tt
                        end)
              ctrl_c))
  = [Join (listener_thread ListenerLoop.TextListener);
     Join (listener_thread ListenerLoop.AudioListener)]
  /\ filter is_Join (trace (main_joining obliging (fun _ => inl tt) ctrl_c))
     = join_calls.
Proof.
  split.
  - destruct (proj1 (joins_in_order obliging
                       (fun t => match t with
                                 | listener_thread ListenerLoop.AudioListener =>
                                     inr KeyboardInterrupt
                                 | _ => inl tt
                                 end)
                       ctrl_c (fun x => eq_refl))) as [n _].
    reflexivity.
  - apply (joins_in_order obliging (fun _ => inl tt) ctrl_c).
    + intros x. reflexivity.
    + reflexivity.
Defined.

(** X22.  Only [KeyboardInterrupt] starts the shut-down: any other
    exception raised in the keep-alive loop (by the status round, say)
    leaves [main] at once, with no engine stopped, [engine_on] not set and
    no thread joined. *)
Theorem other_exception_skips_shutdown
    (engines : Engines) (obs : list Tick) (message : string) :
  (forall x, start engines x = inl tt) ->
  result (keep_alive obs) = Raise (Exception message) ->
  main engines obs
  = (startup_calls ++ trace (keep_alive obs), Raise (Exception message))
  /\ shutdown_calls (trace (main engines obs)) = []
  /\ filter is_Join (trace (main engines obs)) = [].
Proof.
  intros Hs Hk. rewrite (main_cases _ _ Hs), Hk.
  split; [reflexivity|].
  destruct (keep_alive_quiet obs) as (_ & _ & K3).
  fold (keep_alive obs) in K3.
  unfold trace at 1 3. cbn [fst]. unfold shutdown_calls in *.
  rewrite !filter_app, K3, keep_alive_no_join. split; reflexivity.
Qed.

Lemma other_exception_skips_shutdown_witness :
  main obliging
    [mkTick true (inr (Exception "status failed")) (inl tt)]
  = (startup_calls ++ [StatusPoll], Raise (Exception "status failed")).
Proof.
  apply (other_exception_skips_shutdown obliging
           [mkTick true (inr (Exception "status failed")) (inl tt)]
           "status failed").
  - intros x. reflexivity.
  - reflexivity.
Defined.

End main_extras.
